(** * CampusNotes: the JSON-backed note store and the upload handler

    A shallow embedding of [api/store.js] (the record store: [loadNotes],
    [saveNotes], [getNotes], [addNote], [deleteNote], [findNote]) and of the
    part of [dev-server.js] that builds a note on upload.

    The store is a module-level array mirrored into one JSON file.  Every
    function of the store wraps its body in [try { ... } catch], so the
    embedding threads the module state and the file system through a small
    state-and-exception monad and writes each function with the same
    [try]/[catch] shape as the source. *)

From Stdlib Require Import ZArith Lia Ascii String.
From stdpp Require Import base tactics option list gmap strings pretty sorting.

Local Open Scope string_scope.
Local Open Scope Z_scope.
Local Open Scope list_scope.

(** ** JavaScript values

    The values a note's fields hold: primitives and [Date] objects.  A [Date]
    carries its time value in milliseconds since the epoch; [None] is the
    time value NaN ("Invalid Date").  Numbers are the integers (sizes and
    time values are the only numbers the store sees). *)

Inductive jsval : Type :=
  | VUndefined
  | VNull
  | VBool (b : bool)
  | VNum (n : Z)
  | VStr (s : string)
  | VDate (tv : option Z).

#[global] Instance jsval_eq_dec : EqDecision jsval.
Proof. solve_decision. Defined.

(** The values of a JSON text (leaves only: a note is a flat object). *)
Inductive json : Type :=
  | JNull
  | JBool (b : bool)
  | JNum (n : Z)
  | JStr (s : string).

#[global] Instance json_eq_dec : EqDecision json.
Proof. solve_decision. Defined.

(** A note is a plain object: a finite map from property names to values.
    Reading a property that is absent gives [undefined]. *)
Abbreviation note := (gmap string jsval).
Abbreviation jobject := (gmap string json).

Definition prop (o : note) (k : string) : jsval := default VUndefined (o !! k).

(** JavaScript truthiness, for [!x] and [x || y]. *)
Definition truthy (v : jsval) : bool :=
  match v with
  | VUndefined | VNull => false
  | VBool b => b
  | VNum n => negb (n =? 0)
  | VStr s => negb (bool_decide (s = ""))
  | VDate _ => true
  end.

(** ** The engine's date functions

    [Date.parse] is implementation-defined outside the ISO format, so the
    development is parametric in it and in [Date.prototype.toISOString]. *)

Class Engine := {
  Date_parse : string → option Z;
  Date_toISOString : Z → string
}.

(** TimeClip: time values beyond 8.64e15 ms are NaN. *)
Definition TimeClip (t : Z) : option Z :=
  if Z.abs t <=? 8640000000000000 then Some t else None.

Section Values.
Context `{Engine}.

(** The time value of [new Date(v)]. *)
Definition new_Date (v : jsval) : option Z :=
  match v with
  | VDate tv => tv ≫= TimeClip
  | VStr s => Date_parse s ≫= TimeClip
  | VNum n => TimeClip n
  | VBool b => Some (if b then 1 else 0)
  | VNull => Some 0
  | VUndefined => None
  end.

(** What [JSON.stringify] writes for a property value: [undefined] makes
    the property disappear, a [Date] is replaced by the result of its
    [toJSON] (the ISO string, or [null] for an invalid date). *)
Definition toJSON (v : jsval) : option json :=
  match v with
  | VUndefined => None
  | VNull => Some JNull
  | VBool b => Some (JBool b)
  | VNum n => Some (JNum n)
  | VStr s => Some (JStr s)
  | VDate tv =>
      match tv ≫= TimeClip with
      | Some t => Some (JStr (Date_toISOString t))
      | None => Some JNull
      end
  end.

End Values.

(** What [JSON.parse] builds for a JSON leaf. *)
Definition of_json (j : json) : jsval :=
  match j with
  | JNull => VNull
  | JBool b => VBool b
  | JNum n => VNum n
  | JStr s => VStr s
  end.

(** ** The backing file

    The text layer of JSON is not modelled: the content of the file is
    identified with what [JSON.parse] makes of it, either an array of flat
    objects or text that [JSON.parse] rejects with a [SyntaxError].  (Well
    formed JSON that is not an array of objects is outside the model.) *)

Inductive file_data : Type :=
  | JsonText (doc : list jobject)
  | Garbage (raw : string).

#[global] Instance file_data_eq_dec : EqDecision file_data.
Proof. solve_decision. Defined.

(** The file system as the store sees it: the one file [STORE_FILE], and
    whether reading and writing it works ([readFileSync] and [writeFileSync]
    throw otherwise: permissions, a full disk, ...). *)
Record Disk : Type := {
  file : option file_data;
  readable : bool;
  writable : bool
}.

(** The module state of [store.js] together with the disk. *)
Record World : Type := {
  notesStore : list note;
  disk : Disk
}.

Definition with_store (s : list note) (w : World) : World :=
  {| notesStore := s; disk := disk w |}.

Definition with_file (d : file_data) (w : World) : World :=
  {| notesStore := notesStore w;
     disk := {| file := Some d;
                readable := readable (disk w);
                writable := writable (disk w) |} |}.

(** ** Exceptions and the store monad *)

Inductive error : Type :=
  | IOError
  | SyntaxError
  | UploadError (message : string).

Inductive outcome (A : Type) : Type :=
  | Ret (a : A)
  | Throw (e : error).
Arguments Ret {A} a.
Arguments Throw {A} e.

(** A computation runs in a world and ends by returning or by throwing;
    what it did to the world before throwing stays done. *)
Definition M (A : Type) : Type := World → outcome A * World.

#[global] Instance M_ret : MRet M := λ A a w, (Ret a, w).

#[global] Instance M_bind : MBind M := λ A B k m w,
  match m w with
  | (Ret a, w') => k a w'
  | (Throw e, w') => (Throw e, w')
  end.

Definition throw {A} (e : error) : M A := λ w, (Throw e, w).

(** [try { m } catch (error) { h error }] *)
Definition try_catch {A} (m : M A) (h : error → M A) : M A := λ w,
  match m w with
  | (Ret a, w') => (Ret a, w')
  | (Throw e, w') => h e w'
  end.

Definition get_store : M (list note) := λ w, (Ret (notesStore w), w).
Definition set_store (s : list note) : M unit := λ w, (Ret (), with_store s w).

(** ** [fs] and [JSON] *)

Definition existsSync : M bool := λ w,
  (Ret (bool_decide (is_Some (file (disk w)))), w).

Definition readFileSync : M file_data := λ w,
  match file (disk w) with
  | Some d => if readable (disk w) then (Ret d, w) else (Throw IOError, w)
  | None => (Throw IOError, w)
  end.

Definition writeFileSync (d : file_data) : M unit := λ w,
  if writable (disk w) then (Ret (), with_file d w) else (Throw IOError, w).

(** [JSON.parse]: the array it builds, or [None] where it throws. *)
Definition parse_json (d : file_data) : option (list note) :=
  match d with
  | JsonText doc => Some (fmap (M := gmap string) of_json <$> doc)
  | Garbage _ => None
  end.

Definition JSON_parse (d : file_data) : M (list note) :=
  match parse_json d with
  | Some parsed => mret parsed
  | None => throw SyntaxError
  end.

(** ** [Array.prototype.sort]

    The comparator returns a number; [None] is NaN, which [sort] treats as
    [+0].  [sort] is stable: of two elements the comparator does not
    separate, the one that came first stays first.  It is modelled by the
    stable insertion sort; for a consistent comparator every conforming
    engine returns this same array.  A comparator that yields NaN for some
    pairs is not consistent: the order is then left to the engine, whose
    result can differ from the one computed here (both are permutations of
    the array, and both leave alone an array whose neighbours are in
    order).  What is proved about the order of the result is therefore
    stated for comparators that never yield NaN on the array. *)

Section Sort.
Context {A : Type} (cmp : A → A → option Z).

Definition sort_before (a b : A) : bool :=
  match cmp a b with
  | Some v => v <=? 0
  | None => true
  end.

Fixpoint sort_insert (x : A) (l : list A) : list A :=
  match l with
  | [] => [x]
  | y :: l' => if sort_before x y then x :: l else y :: sort_insert x l'
  end.

Definition Array_sort (l : list A) : list A := foldr sort_insert [] l.

End Sort.

(** What the exported functions hand back: a note, [null] or [undefined]. *)
Inductive ref : Type :=
  | RNote (n : note)
  | RNull
  | RUndefined.

(** [Array.prototype.find]: the first element that satisfies the predicate,
    or [undefined]. *)
Definition Array_find {A} (P : A → Prop) `{∀ x, Decision (P x)}
    (l : list A) : option A :=
  snd <$> list_find P l.

Definition ref_of (o : option note) : ref :=
  match o with
  | Some n => RNote n
  | None => RUndefined
  end.

(** [note => note.id === id], for a string [id]. *)
Definition has_id (id : string) (n : note) : Prop := prop n "id" = VStr id.

#[global] Instance has_id_dec id n : Decision (has_id id n).
Proof. unfold has_id. apply _. Defined.

(** ** store.js *)

Section Store.
Context `{Engine}.

(** [JSON.stringify(notesStore, null, 2)] *)
Definition JSON_stringify (s : list note) : file_data :=
  JsonText (omap (M := gmap string) toJSON <$> s).

(** [function saveNotes()].  The [catch] only logs. *)
Definition saveNotes : M unit :=
  try_catch
    (s ← get_store;
     writeFileSync (JSON_stringify s))
    (λ _, mret ()).

(** [function loadNotes()] *)
Definition loadNotes : M unit :=
  try_catch
    (ex ← existsSync;
     if ex : bool then
       data ← readFileSync;
       parsed ← JSON_parse data;
       set_store parsed
     else
       set_store [];;
       saveNotes)
    (λ _, set_store []).

(** [(a, b) => new Date(b.createdAt) - new Date(a.createdAt)].  The
    difference of two time values is computed in floating point, which may
    round it but never changes its sign; [sort] only uses the sign. *)
Definition by_createdAt (a b : note) : option Z :=
  tb ← new_Date (prop b "createdAt");
  ta ← new_Date (prop a "createdAt");
  Some (tb - ta).

(** [export function getNotes()].  [sort] sorts the array in place and
    returns that same array. *)
Definition getNotes : M (list note) :=
  try_catch
    (s ← get_store;
     let sorted := Array_sort by_createdAt s in
     set_store sorted;;
     mret sorted)
    (λ _, mret []).

(** [export function addNote(note)] *)
Definition addNote (n : note) : M ref :=
  try_catch
    (s ← get_store;
     set_store (s ++ [n]);;
     saveNotes;;
     mret (RNote n))
    (λ _, mret RNull).

(** [export function deleteNote(id)].  [list_find] gives the index that
    [findIndex] returns together with the element at that index;
    [delete noteIndex s] is [splice(noteIndex, 1)]. *)
Definition deleteNote (id : string) : M ref :=
  try_catch
    (s ← get_store;
     match list_find (has_id id) s with
     | None => mret RNull
     | Some (noteIndex, n) =>
         set_store (delete noteIndex s);;
         saveNotes;;
         mret (RNote n)
     end)
    (λ _, mret RNull).

(** [export function findNote(id)] *)
Definition findNote (id : string) : M ref :=
  try_catch
    (s ← get_store;
     mret (ref_of (Array_find (has_id id) s)))
    (λ _, mret RNull).

(** Module initialisation: [let notesStore = []; ... loadNotes();] *)
Definition init (d : Disk) : World :=
  (loadNotes {| notesStore := []; disk := d |}).2.

End Store.

(** ** dev-server.js: [app.post('/api/upload', ...)] *)

(** [String.prototype.trim], on strings of Latin-1 code units: the white
    space and line terminators below U+0100. *)
Definition is_js_space (c : Ascii.ascii) : bool :=
  match Ascii.N_of_ascii c with
  | 9 | 10 | 11 | 12 | 13 | 32 | 160 => true
  | _ => false
  end%N.

Fixpoint trim_start (s : string) : string :=
  match s with
  | String c s' => if is_js_space c then trim_start s' else s
  | EmptyString => EmptyString
  end.

Definition trim (s : string) : string :=
  String.rev (trim_start (String.rev (trim_start s))).

(** [req.file], as multer fills it. *)
Record file_part : Type := {
  originalname : string;
  mimetype : string;
  size : Z
}.

(** A multipart request: the text fields of [req.body] ([None] when the
    form has no such field) and the uploaded file. *)
Record upload_request : Type := {
  body_title : option string;
  body_subject : option string;
  body_desc : option string;
  body_type : option string;
  req_file : option file_part
}.

(** How the call to Cloudinary ends: [resolve(result)] with the result's
    [secure_url] and [public_id], or [reject(error)]. *)
Inductive cloud_reply : Type :=
  | Resolved (secure_url public_id : jsval)
  | Rejected (message : string).

(** The JSON bodies of the replies: [{ error: "File and title are
    required" }], [{ error: "Upload failed: " + error.message }] and
    [{ message: ..., file: note }]. *)
Inductive reply_body : Type :=
  | RequiredBody
  | FailedBody (e : error)
  | FileBody (file_note : note).

Record response : Type := {
  status : Z;
  body : reply_body
}.

(** A text field as a value: the string, or [undefined]. *)
Definition field (o : option string) : jsval := from_option VStr VUndefined o.

(** [x?.trim()] *)
Definition opt_trim (o : option string) : jsval :=
  from_option (λ s, VStr (trim s)) VUndefined o.

(** [x || y] *)
Definition js_or (x y : jsval) : jsval := if truthy x then x else y.

Section Handler.
Context `{Engine}.

(** The note object the handler creates.  [now_id] is what [Date.now()]
    reads for the identifier and [now_created] the time of [new Date()]. *)
Definition make_note (title : string) (req : upload_request) (f : file_part)
    (url pid : jsval) (now_id now_created : Z) : note :=
  list_to_map
    [ ("id", VStr (pretty now_id));
      ("title", VStr (trim title));
      ("subject", js_or (opt_trim (body_subject req)) (VStr ""));
      ("desc", js_or (opt_trim (body_desc req)) (VStr ""));
      ("type", js_or (field (body_type req)) (VStr "note"));
      ("fileName", VStr (originalname f));
      ("fileUrl", url);
      ("publicId", pid);
      ("fileType", VStr (mimetype f));
      ("fileSize", VNum (size f));
      ("createdAt", VDate (Some now_created)) ].

(** The handler, with the outcome of the Cloudinary call given. *)
Definition upload (req : upload_request) (cloud : cloud_reply)
    (now_id now_created : Z) : M response :=
  try_catch
    (match req_file req, body_title req with
     | Some f, Some title =>
         if negb (truthy (VStr title)) then
           mret {| status := 400; body := RequiredBody |}
         else
           match cloud with
           | Rejected m => throw (UploadError m)
           | Resolved url pid =>
               let n := make_note title req f url pid now_id now_created in
               addNote n;;
               mret {| status := 201; body := FileBody n |}
           end
     | _, _ =>
         mret {| status := 400; body := RequiredBody |}
     end)
    (λ e, mret {| status := 500; body := FailedBody e |}).

End Handler.

(** ** A reference engine

    The date-time string format of ECMAScript as [toISOString] writes it,
    [YYYY-MM-DDTHH:mm:ss.sssZ] (with a sign and six digits for years outside
    0..9999), over the proleptic Gregorian calendar.  [iso_parse] reads
    that format and nothing else. *)

Module ISO.

Definition msPerDay : Z := 86400000.

(** Day number (days since 1970-01-01) to year, month and day. *)
Definition civil_from_days (z : Z) : Z * Z * Z :=
  let z := z + 719468 in
  let era := z / 146097 in
  let doe := z - era * 146097 in
  let yoe := (doe - doe / 1460 + doe / 36524 - doe / 146096) / 365 in
  let doy := doe - (365 * yoe + yoe / 4 - yoe / 100) in
  let mp := (5 * doy + 2) / 153 in
  let d := doy - (153 * mp + 2) / 5 + 1 in
  let m := if mp <? 10 then mp + 3 else mp - 9 in
  let y := yoe + era * 400 in
  (if m <=? 2 then y + 1 else y, m, d).

Definition days_from_civil (y m d : Z) : Z :=
  let y := if m <=? 2 then y - 1 else y in
  let era := y / 400 in
  let yoe := y - era * 400 in
  let doy := (153 * (if 2 <? m then m - 3 else m + 9) + 2) / 5 + d - 1 in
  let doe := yoe * 365 + yoe / 4 - yoe / 100 + doy in
  era * 146097 + doe - 719468.

Definition digit (n : Z) : Ascii.ascii := Ascii.ascii_of_N (48 + Z.to_N (n mod 10)).

(** [n] in decimal, on exactly [width] digits. *)
Fixpoint digits (width : nat) (n : Z) : string :=
  match width with
  | O => ""
  | S k => digits k (n / 10) +:+ String (digit n) ""
  end.

Definition iso_year (y : Z) : string :=
  if (0 <=? y) && (y <=? 9999) then digits 4 y
  else (if y <? 0 then "-" else "+") +:+ digits 6 (Z.abs y).

Definition iso_print (t : Z) : string :=
  let '(y, m, d) := civil_from_days (t / msPerDay) in
  let ms := t mod msPerDay in
  iso_year y +:+ "-" +:+ digits 2 m +:+ "-" +:+ digits 2 d +:+ "T" +:+
  digits 2 (ms / 3600000) +:+ ":" +:+ digits 2 (ms / 60000 mod 60) +:+ ":" +:+
  digits 2 (ms / 1000 mod 60) +:+ "." +:+ digits 3 (ms mod 1000) +:+ "Z".

(** Reading: [k] decimal digits, then a given character. *)
Fixpoint read_digits (k : nat) (acc : Z) (s : string) : option (Z * string) :=
  match k with
  | O => Some (acc, s)
  | S k' =>
      match s with
      | String c s' =>
          let n := Ascii.N_of_ascii c in
          if ((48 <=? n) && (n <=? 57))%N
          then read_digits k' (10 * acc + Z.of_N (n - 48)) s'
          else None
      | EmptyString => None
      end
  end.

Definition expect (c : Ascii.ascii) (s : string) : option string :=
  match s with
  | String c' s' => if bool_decide (c = c') then Some s' else None
  | EmptyString => None
  end.

Definition read_year (s : string) : option (Z * string) :=
  match s with
  | String "+"%char s' => read_digits 6 0 s'
  | String "-"%char s' =>
      '(y, r) ← read_digits 6 0 s';
      if y =? 0 then None else Some (- y, r)
  | _ => read_digits 4 0 s
  end.

Definition is_leap (y : Z) : bool :=
  (y mod 4 =? 0) && (negb (y mod 100 =? 0) || (y mod 400 =? 0)).

Definition days_in_month (y m : Z) : Z :=
  if m =? 2 then (if is_leap y then 29 else 28)
  else if (m =? 4) || (m =? 6) || (m =? 9) || (m =? 11) then 30 else 31.

Definition iso_parse (s : string) : option Z :=
  '(y, s) ← read_year s;
  s ← expect "-"%char s;
  '(m, s) ← read_digits 2 0 s;
  s ← expect "-"%char s;
  '(d, s) ← read_digits 2 0 s;
  s ← expect "T"%char s;
  '(hh, s) ← read_digits 2 0 s;
  s ← expect ":"%char s;
  '(mm, s) ← read_digits 2 0 s;
  s ← expect ":"%char s;
  '(ss, s) ← read_digits 2 0 s;
  s ← expect "."%char s;
  '(ms, s) ← read_digits 3 0 s;
  s ← expect "Z"%char s;
  if bool_decide (s = "")
     && (1 <=? m) && (m <=? 12) && (1 <=? d) && (d <=? days_in_month y m)
     && (hh <=? 23) && (mm <=? 59) && (ss <=? 59)
  then Some (days_from_civil y m d * msPerDay
             + hh * 3600000 + mm * 60000 + ss * 1000 + ms)
  else None.

#[global] Instance engine : Engine :=
  {| Date_parse := iso_parse; Date_toISOString := iso_print |}.

End ISO.


(** ** Notions the properties are stated with *)

Section Notions.
Context `{Engine}.

(** The world [saveNotes] leaves: the file rewritten when the write goes
    through, everything as it was when [writeFileSync] throws. *)
Definition saved (w : World) : World :=
  if writable (disk w) then with_file (JSON_stringify (notesStore w)) w else w.

(** The file holds the serialisation of the collection in memory. *)
Definition mirrored (w : World) : Prop :=
  file (disk w) = Some (JSON_stringify (notesStore w)).

(** What reading the file back and parsing it produces. *)
Definition reloaded (w : World) : option (list note) :=
  file (disk w) ≫= parse_json.

(** A note after a trip through [JSON.stringify] and [JSON.parse]. *)
Definition json_image (n : note) : note :=
  of_json <$> omap toJSON n.

(** Values that JSON represents as they are. *)
Definition json_value (v : jsval) : Prop :=
  match v with
  | VUndefined | VDate _ => False
  | _ => True
  end.

Definition json_plain (n : note) : Prop := map_Forall (λ _, json_value) n.

(** The creation time [getNotes] orders by. *)
Definition created (n : note) : option Z := new_Date (prop n "createdAt").

(** The creation timestamp is well formed: it denotes a time. *)
Definition well_timed (n : note) : Prop := is_Some (created n).

(** [a] is at least as recent as [b]. *)
Definition newest_first (a b : note) : Prop :=
  ∃ ta tb, created a = Some ta ∧ created b = Some tb ∧ tb ≤ ta.

End Notions.

(** ** dev-server.js: what the upload handler sends to Cloudinary *)

(** [`${x}`] for a text field: the string, or ["undefined"]. *)
Definition template (o : option string) : string := default "undefined" o.

(** [name.split('.')[0]]: the characters before the first dot. *)
Fixpoint before_dot (s : string) : string :=
  match s with
  | String c s' =>
      if bool_decide (c = "."%char) then EmptyString
      else String c (before_dot s')
  | EmptyString => EmptyString
  end.

(** The options object given to [cloudinary.uploader.upload_stream]. *)
Record upload_options : Type := {
  resource_type : string;
  folder : string;
  public_id : string
}.

(** [now_pid] is what [Date.now()] reads for the public id. *)
Definition upload_stream_options (req : upload_request) (f : file_part)
    (now_pid : Z) : upload_options :=
  {| resource_type :=
       if bool_decide (body_type req = Some "image") then "image" else "raw";
     folder := "campusnotes/" +:+ template (body_type req) +:+ "s";
     public_id := pretty now_pid +:+ "_" +:+ before_dot (originalname f) |}.

(** ** dev-server.js: [app.get('/api/notes', ...)] and [app.get('/api/data', ...)] *)

(** The body is what [res.json] sends: the JSON text of its argument. *)
Inductive list_body : Type :=
  | NotesBody (text : file_data)
  | FetchFailedBody (error_text : string).

Record list_response : Type := {
  list_status : Z;
  list_payload : list_body
}.

(** ** dev-server.js: [app.delete('/api/data/:id', ...)] *)

(** How [cloudinary.uploader.destroy] ends. *)
Inductive destroy_reply : Type :=
  | Destroyed
  | DestroyRejected (message : string).

(** The arguments of the call to [destroy]: the public id and the
    [resource_type] option. *)
Record destroy_call : Type := {
  destroy_id : jsval;
  destroy_resource_type : string
}.

Inductive delete_body : Type :=
  | IdRequiredBody
  | NotFoundBody
  | DeletedBody
  | DeleteFailedBody (e : error).

(** The reply, and the call to [destroy] the handler made on the way. *)
Record delete_response : Type := {
  delete_status : Z;
  delete_payload : delete_body;
  destroy_sent : option destroy_call
}.

(** [note.type === 'image' ? 'image' : 'raw'] *)
Definition destroy_type (n : note) : string :=
  if bool_decide (prop n "type" = VStr "image") then "image" else "raw".

Section Routes.
Context `{Engine}.

(** [app.get('/api/notes', ...)] *)
Definition get_api_notes : M list_response :=
  try_catch
    (notes ← getNotes;
     mret {| list_status := 200;
             list_payload := NotesBody (JSON_stringify notes) |})
    (λ _, mret {| list_status := 500;
                  list_payload := FetchFailedBody "Failed to fetch notes" |}).

(** [app.get('/api/data', ...)] *)
Definition get_api_data : M list_response :=
  try_catch
    (notes ← getNotes;
     mret {| list_status := 200;
             list_payload := NotesBody (JSON_stringify notes) |})
    (λ _, mret {| list_status := 500;
                  list_payload := FetchFailedBody "Failed to fetch data" |}).

(** [app.delete('/api/data/:id', ...)], for one request served on its own,
    with the outcome of the call to Cloudinary given.  A rejected [destroy]
    is caught and logged inside. *)
Definition delete_api_data (id : string) (cloud : destroy_reply)
    : M delete_response :=
  try_catch
    (if negb (truthy (VStr id)) then
       mret {| delete_status := 400; delete_payload := IdRequiredBody;
               destroy_sent := None |}
     else
       found ← findNote id;
       match found with
       | RNote n =>
           sent ←
             (if truthy (prop n "publicId") then
                try_catch
                  (match cloud with
                   | Destroyed => mret ()
                   | DestroyRejected m => throw (UploadError m)
                   end)
                  (λ _, mret ());;
                mret (Some {| destroy_id := prop n "publicId";
                              destroy_resource_type := destroy_type n |})
              else mret None);
           deleteNote id;;
           mret {| delete_status := 200; delete_payload := DeletedBody;
                   destroy_sent := sent |}
       | RNull | RUndefined =>
           mret {| delete_status := 404; delete_payload := NotFoundBody;
                   destroy_sent := None |}
       end)
    (λ e, mret {| delete_status := 500; delete_payload := DeleteFailedBody e;
                  destroy_sent := None |}).

(** ** Sequences of calls to the store *)

Inductive call : Type :=
  | Call_getNotes
  | Call_addNote (n : note)
  | Call_deleteNote (id : string)
  | Call_findNote (id : string).

(** The world a call leaves. *)
Definition after (c : call) (w : World) : World :=
  match c with
  | Call_getNotes => (getNotes w).2
  | Call_addNote n => (addNote n w).2
  | Call_deleteNote id => (deleteNote id w).2
  | Call_findNote id => (findNote id w).2
  end.

Definition after_all (cs : list call) (w : World) : World :=
  foldl (λ w c, after c w) w cs.

(** What a call hands to its caller: the array of [getNotes], the note,
    [null] or [undefined] of the other functions, or an exception. *)
Inductive answer : Type :=
  | Listed (l : list note)
  | Handed (r : ref)
  | Thrown (e : error).

Definition answer_of {A} (f : A → answer) (o : outcome A) : answer :=
  match o with
  | Ret a => f a
  | Throw e => Thrown e
  end.

Definition answer_to (c : call) (w : World) : answer :=
  match c with
  | Call_getNotes => answer_of Listed (getNotes w).1
  | Call_addNote n => answer_of Handed (addNote n w).1
  | Call_deleteNote id => answer_of Handed (deleteNote id w).1
  | Call_findNote id => answer_of Handed (findNote id w).1
  end.

(** The answers to a sequence of calls, each made in the world the calls
    before it left. *)
Fixpoint answers (cs : list call) (w : World) : list answer :=
  match cs with
  | [] => []
  | c :: cs' => answer_to c w :: answers cs' (after c w)
  end.

(** The file holds the records of the collection in memory, in JSON form,
    in some order. *)
Definition synced (w : World) : Prop :=
  ∃ doc, file (disk w) = Some (JsonText doc) ∧
         doc ≡ₚ omap (M := gmap string) toJSON <$> notesStore w.

(** The engine reads the creation time of [n] back from what it wrote. *)
Definition reads_back (n : note) : Prop := created (json_image n) = created n.

End Routes.

(** ** Sample data *)

Module Sample.

Definition mk (id title : string) (createdAt : jsval) : note :=
  list_to_map [("id", VStr id); ("title", VStr title); ("createdAt", createdAt)].

Definition disk_ok : Disk :=
  {| file := Some (JsonText []); readable := true; writable := true |}.

Definition disk_full : Disk :=
  {| file := Some (JsonText []); readable := true; writable := false |}.

Definition disk_corrupt : Disk :=
  {| file := Some (Garbage "[{ 'id': "); readable := true; writable := true |}.

Definition empty_ok : World := {| notesStore := []; disk := disk_ok |}.
Definition empty_full : World := {| notesStore := []; disk := disk_full |}.

(** Three notes created at t1 < t2 < t3. *)
Definition note_A : note := mk "1700000000001" "A" (VDate (Some 1700000000001)).
Definition note_B : note := mk "1700000000002" "B" (VDate (Some 1700000000002)).
Definition note_C : note := mk "1700000000003" "C" (VDate (Some 1700000000003)).

(** The same identifier twice. *)
Definition twin_1 : note := mk "1700000000000" "first" (VStr "2023-11-14T22:13:20.000Z").
Definition twin_2 : note := mk "1700000000000" "second" (VStr "2023-11-14T22:13:20.500Z").

Definition in_order : World :=
  {| notesStore := [note_A; note_B; note_C]; disk := disk_ok |}.

Definition twins : World :=
  {| notesStore := [note_A; twin_1; note_B; twin_2]; disk := disk_ok |}.

Definition one_twin : World :=
  {| notesStore := [twin_1]; disk := disk_ok |}.

Definition corrupt : World :=
  {| notesStore := []; disk := disk_corrupt |}.

Definition form : upload_request :=
  {| body_title := Some " Algebra I ";
     body_subject := None;
     body_desc := None;
     body_type := None;
     req_file := Some {| originalname := "algebra.pdf";
                         mimetype := "application/pdf";
                         size := 1024 |} |}.

Definition cloud_ok : cloud_reply :=
  Resolved (VStr "https://res.cloudinary.com/x/raw/upload/algebra")
           (VStr "campusnotes/undefineds/1700000000000_algebra").

(** The note the handler builds from [form]. *)
Definition stored : note :=
  list_to_map
    [ ("id", VStr "1700000000000");
      ("title", VStr "Algebra I");
      ("subject", VStr "");
      ("desc", VStr "");
      ("type", VStr "note");
      ("fileName", VStr "algebra.pdf");
      ("fileUrl", VStr "https://res.cloudinary.com/x/raw/upload/algebra");
      ("publicId", VStr "campusnotes/undefineds/1700000000000_algebra");
      ("fileType", VStr "application/pdf");
      ("fileSize", VNum 1024);
      ("createdAt", VDate (Some 1700000000005)) ].

(** A disk on which the file does not exist yet. *)
Definition disk_fresh : Disk :=
  {| file := None; readable := true; writable := true |}.

Definition disk_locked : Disk :=
  {| file := Some (JsonText []); readable := false; writable := true |}.

Definition fresh : World := {| notesStore := []; disk := disk_fresh |}.

(** An upload of an image. *)
Definition photo : upload_request :=
  {| body_title := Some "Board";
     body_subject := Some " Physics ";
     body_desc := Some "";
     body_type := Some "image";
     req_file := Some {| originalname := "board.photo.png";
                         mimetype := "image/png";
                         size := 2048 |} |}.

Definition blank_title : upload_request :=
  {| body_title := Some "   ";
     body_subject := None;
     body_desc := None;
     body_type := None;
     req_file := req_file form |}.

Definition no_file : upload_request :=
  {| body_title := Some "Algebra I";
     body_subject := None;
     body_desc := None;
     body_type := None;
     req_file := None |}.

Definition with_stored : World :=
  {| notesStore := [note_A; stored]; disk := disk_ok |}.

(** A record without a creation time, between an older and a newer one. *)
Definition note_X : note :=
  list_to_map [("id", VStr "1700000000009"); ("title", VStr "X")].

Definition undated : World :=
  {| notesStore := [note_A; note_X; note_C]; disk := disk_ok |}.

(** Creation times held as [null], as a number, as a string and as a
    [Date], from the oldest to the newest. *)
Definition note_null : note := mk "0" "epoch" VNull.
Definition note_num : note := mk "1700000000001" "number" (VNum 1700000000001).

Definition mixed : World :=
  {| notesStore := [note_null; twin_1; note_num; note_B; twin_2];
     disk := disk_ok |}.

(** Two notes created in the same millisecond around an older one. *)
Definition note_P : note := mk "1700000000002" "P" (VDate (Some 1700000000002)).
Definition note_R : note := mk "1700000000002" "R" (VStr "2023-11-14T22:13:20.002Z").

Definition tied : World :=
  {| notesStore := [note_P; note_A; note_R]; disk := disk_ok |}.

End Sample.

(** * Properties *)

(** ** The sort *)

Section SortFacts.
Context {A : Type} (cmp : A → A → option Z).

Lemma sort_insert_Permutation (x : A) (l : list A) :
  sort_insert cmp x l ≡ₚ x :: l.
Proof.
  induction l as [|y l IH]; simpl; [done|].
  destruct (sort_before cmp x y); [done|].
  rewrite IH. apply Permutation_swap.
Qed.

Lemma Array_sort_Permutation (l : list A) : Array_sort cmp l ≡ₚ l.
Proof.
  induction l as [|x l IH]; simpl; [done|].
  by rewrite sort_insert_Permutation, IH.
Qed.

Lemma Array_sort_length (l : list A) :
  length (Array_sort cmp l) = length l.
Proof. apply Permutation_length, Array_sort_Permutation. Qed.

(** An array whose neighbours are already in order is left as it is. *)
Lemma Array_sort_sorted (l : list A) :
  Sorted (λ a b, sort_before cmp a b = true) l → Array_sort cmp l = l.
Proof.
  induction 1 as [|x l Hl IH Hhd]; simpl; [done|].
  rewrite IH. destruct Hhd as [|y l' Hxy]; simpl; [done|].
  by rewrite Hxy.
Qed.

(** Stability: the elements of a class that the comparator does not
    separate come out in the order they came in. *)
Lemma sort_insert_filter (P : A → Prop) `{!∀ x, Decision (P x)}
    (x : A) (l : list A) :
  (∀ y, P x → P y → sort_before cmp x y = true) →
  filter P (sort_insert cmp x l) = filter P (x :: l).
Proof.
  intros Htie. induction l as [|y l IH]; simpl; [done|].
  destruct (sort_before cmp x y) eqn:Hxy; [done|].
  rewrite filter_cons, IH, !filter_cons.
  destruct (decide (P x)) as [Hx|]; [|done].
  destruct (decide (P y)) as [Hy|]; [|done].
  by rewrite Htie in Hxy.
Qed.

Lemma Array_sort_stable (P : A → Prop) `{!∀ x, Decision (P x)}
    (l : list A) :
  (∀ x y, P x → P y → sort_before cmp x y = true) →
  filter P (Array_sort cmp l) = filter P l.
Proof.
  intros Htie. induction l as [|x l IH]; simpl; [done|].
  rewrite sort_insert_filter by eauto.
  by rewrite !filter_cons, IH.
Qed.

End SortFacts.

(** ** Running the store functions *)

Section StoreFacts.
Context `{Engine}.

Lemma saveNotes_run (w : World) : saveNotes w = (Ret (), saved w).
Proof.
  unfold saveNotes, saved, try_catch, mbind, M_bind, get_store, writeFileSync.
  by destruct (writable (disk w)).
Qed.

Lemma saved_store (w : World) : notesStore (saved w) = notesStore w.
Proof. unfold saved. by destruct (writable (disk w)). Qed.

Lemma saved_file (w : World) :
  file (disk (saved w)) =
  if writable (disk w) then Some (JSON_stringify (notesStore w))
  else file (disk w).
Proof. unfold saved. by destruct (writable (disk w)). Qed.

Lemma addNote_run (n : note) (w : World) :
  addNote n w = (Ret (RNote n), saved (with_store (notesStore w ++ [n]) w)).
Proof.
  unfold addNote, try_catch, mbind, M_bind, get_store, set_store.
  by rewrite saveNotes_run.
Qed.

Lemma deleteNote_run (id : string) (w : World) :
  deleteNote id w =
  match list_find (has_id id) (notesStore w) with
  | Some (i, n) => (Ret (RNote n), saved (with_store (delete i (notesStore w)) w))
  | None => (Ret RNull, w)
  end.
Proof.
  unfold deleteNote, try_catch, mbind, M_bind, get_store, set_store.
  destruct (list_find _ _) as [[i n]|]; [|done].
  by rewrite saveNotes_run.
Qed.

Lemma loadNotes_absent (w : World) :
  file (disk w) = None → loadNotes w = (Ret (), saved (with_store [] w)).
Proof.
  intros Hf. unfold loadNotes, try_catch, mbind, M_bind, existsSync, set_store.
  rewrite Hf. simpl. by rewrite saveNotes_run.
Qed.

Lemma loadNotes_present (w : World) (doc : list jobject) :
  file (disk w) = Some (JsonText doc) → readable (disk w) = true →
  loadNotes w = (Ret (), with_store (fmap (M := gmap string) of_json <$> doc) w).
Proof.
  intros Hf Hr.
  unfold loadNotes, try_catch, mbind, M_bind, existsSync, readFileSync.
  rewrite Hf. simpl. by rewrite Hf, Hr.
Qed.

Lemma findNote_run (id : string) (w : World) :
  findNote id w = (Ret (ref_of (Array_find (has_id id) (notesStore w))), w).
Proof. done. Qed.

Lemma getNotes_run (w : World) :
  getNotes w = (Ret (Array_sort by_createdAt (notesStore w)),
                with_store (Array_sort by_createdAt (notesStore w)) w).
Proof. done. Qed.

(** The first match of a list split at its first match. *)
Lemma list_find_first {A} (P : A → Prop) `{!∀ x, Decision (P x)}
    (l1 l2 : list A) (x : A) :
  Forall (λ y, ¬ P y) l1 → P x →
  list_find P (l1 ++ x :: l2) = Some (length l1, x).
Proof.
  intros Hl1 Hx. apply list_find_Some. split_and!.
  - by rewrite list_lookup_middle.
  - done.
  - intros j y Hj Hlt. rewrite lookup_app_l in Hj by done.
    eapply Forall_lookup_1 in Hl1; eauto.
Qed.

(** A list that has a match splits at its first match. *)
Lemma first_match_split {A} (P : A → Prop) `{!∀ x, Decision (P x)}
    (l : list A) :
  Exists P l →
  ∃ l1 x l2, l = l1 ++ x :: l2 ∧ P x ∧ Forall (λ y, ¬ P y) l1.
Proof.
  induction 1 as [x l Hx|x l _ (l1 & y & l2 & -> & Hy & Hl1)].
  - by exists [], x, l.
  - destruct (decide (P x)) as [Hx|Hx].
    + by exists [], x, (l1 ++ y :: l2).
    + exists (x :: l1), y, l2. by repeat constructor.
Qed.

End StoreFacts.

(** ** Ordering by creation time *)

Section Ordering.
Context `{Engine}.

Lemma sort_before_newest (a b : note) :
  well_timed a → well_timed b →
  sort_before by_createdAt a b = true → newest_first a b.
Proof.
  intros [ta Ha] [tb Hb]. unfold sort_before, by_createdAt.
  unfold created in Ha, Hb. rewrite Ha, Hb. simpl.
  intros Hle%Z.leb_le. exists ta, tb. unfold created. split_and!; [done..|lia].
Qed.

Lemma sort_after_newest (a b : note) :
  well_timed a → well_timed b →
  sort_before by_createdAt a b = false → newest_first b a.
Proof.
  intros [ta Ha] [tb Hb]. unfold sort_before, by_createdAt.
  unfold created in Ha, Hb. rewrite Ha, Hb. simpl.
  intros Hgt%Z.leb_gt. exists tb, ta. unfold created. split_and!; [done..|lia].
Qed.

Lemma newest_first_trans (a b c : note) :
  newest_first a b → newest_first b c → newest_first a c.
Proof.
  intros (ta & tb & Ha & Hb & Hab) (tb' & tc & Hb' & Hc & Hbc).
  rewrite Hb in Hb'. injection Hb' as <-.
  exists ta, tc. split_and!; [done..|lia].
Qed.

Lemma sort_insert_newest (x : note) (l : list note) :
  well_timed x → Forall well_timed l →
  StronglySorted newest_first l →
  StronglySorted newest_first (sort_insert by_createdAt x l).
Proof.
  intros Hx Hl Hs. induction Hs as [|y l Hs IH Hy]; simpl.
  - repeat constructor.
  - apply Forall_cons in Hl as [Hwy Hl].
    destruct (sort_before by_createdAt x y) eqn:Hxy.
    + apply sort_before_newest in Hxy; [|done..].
      constructor; [by constructor|]. constructor; [done|].
      eapply Forall_impl; [exact Hy|]. intros z. by apply newest_first_trans.
    + apply sort_after_newest in Hxy; [|done..].
      constructor; [by apply IH|].
      rewrite sort_insert_Permutation. by constructor.
Qed.

(** Notes created at the same time keep the order they had. *)
Lemma Array_sort_same_time (t : Z) (l : list note) :
  filter (λ n, created n = Some t) (Array_sort by_createdAt l) =
  filter (λ n, created n = Some t) l.
Proof.
  apply Array_sort_stable. intros x y Hx Hy.
  unfold sort_before, by_createdAt. unfold created in Hx, Hy.
  rewrite Hx, Hy. simpl. apply Z.leb_le. lia.
Qed.

Lemma Array_sort_newest (l : list note) :
  Forall well_timed l →
  StronglySorted newest_first (Array_sort by_createdAt l).
Proof.
  induction 1 as [|x l Hx Hl IH]; simpl; [constructor|].
  apply sort_insert_newest; [done| |done].
  by rewrite Array_sort_Permutation.
Qed.

End Ordering.

(** ** The trip through JSON *)

Section Json.
Context `{Engine}.

Lemma toJSON_of_json (v : jsval) :
  json_value v → of_json <$> toJSON v = Some v.
Proof. by destruct v. Qed.

Lemma json_image_plain (n : note) : json_plain n → json_image n = n.
Proof.
  intros Hn. apply map_eq. intros k. unfold json_image.
  rewrite lookup_fmap, lookup_omap.
  destruct (n !! k) as [v|] eqn:Hk; simpl; [|done].
  apply toJSON_of_json. by apply (Hn k).
Qed.

Lemma reloaded_mirrored (w : World) :
  mirrored w → reloaded w = Some (json_image <$> notesStore w).
Proof.
  unfold mirrored, reloaded. intros ->. simpl.
  by rewrite <- list_fmap_compose.
Qed.

Lemma json_image_plain_all (l : list note) :
  Forall json_plain l → json_image <$> l = l.
Proof.
  induction 1 as [|n l Hn _ IH]; csimpl; [done|].
  by rewrite json_image_plain, IH.
Qed.

Lemma reloaded_plain (w : World) :
  mirrored w → Forall json_plain (notesStore w) →
  reloaded w = Some (notesStore w).
Proof.
  intros Hm Hp. rewrite reloaded_mirrored by done.
  by rewrite json_image_plain_all.
Qed.

Lemma saved_mirrored (w : World) :
  writable (disk w) = true → mirrored (saved w).
Proof. unfold mirrored, saved. by intros ->. Qed.

End Json.

(** * The claims *)

Section Claims.
Context `{Engine}.

(** C1, amended.  After an [addNote], or a [deleteNote] that finds its record,
    on a disk where the write goes through, the backing file holds exactly
    the serialisation of the collection in memory; reading and parsing it
    gives the collection with each note replaced by its JSON image ([Date]
    objects as ISO strings, [undefined] properties dropped), which is the
    collection itself when its notes hold JSON values only. *)
Theorem mutation_mirrored (w w' : World) (r : note) :
  writable (disk w) = true →
  (∃ n, addNote n w = (Ret (RNote r), w')) ∨
  (∃ id, deleteNote id w = (Ret (RNote r), w')) →
  mirrored w' ∧
  reloaded w' = Some (json_image <$> notesStore w') ∧
  (Forall json_plain (notesStore w') → reloaded w' = Some (notesStore w')).
Proof.
  intros Hw Hop.
  assert (mirrored w') as Hm.
  { destruct Hop as [[n Hadd]|[id Hdel]].
    - rewrite addNote_run in Hadd. injection Hadd as _ <-.
      by apply saved_mirrored.
    - rewrite deleteNote_run in Hdel.
      destruct (list_find _ _) as [[i m]|]; [|done].
      injection Hdel as _ <-. by apply saved_mirrored. }
  split_and!; [done|by apply reloaded_mirrored|by apply reloaded_plain].
Qed.


(** C3, amended.  When every record of the collection has a well-formed
    creation timestamp, [getNotes] returns all the records of the
    collection, each at least as recent as all that follow it. *)
Theorem getNotes_newest_first (w : World) :
  Forall well_timed (notesStore w) →
  ∃ l w', getNotes w = (Ret l, w') ∧
          l ≡ₚ notesStore w ∧
          StronglySorted newest_first l.
Proof.
  intros Hw. do 2 eexists. split; [apply getNotes_run|]. split.
  - apply Array_sort_Permutation.
  - by apply Array_sort_newest.
Qed.

(** C4, amended.  When no record of the collection carries the identifier
    of [n] yet, [addNote n] followed by [findNote] on that identifier
    returns [n]. *)
Theorem find_after_add (n : note) (id : string) (w : World) :
  has_id id n →
  Forall (λ m, ¬ has_id id m) (notesStore w) →
  ∃ w', (addNote n;; findNote id) w = (Ret (RNote n), w').
Proof.
  intros Hn Hfresh. eexists. unfold mbind, M_bind.
  rewrite addNote_run, findNote_run, saved_store. simpl.
  unfold Array_find.
  rewrite (list_find_first (has_id id) (notesStore w) [] n) by done.
  done.
Qed.

(** C5, amended.  For an identifier present in the collection, [deleteNote]
    removes the first record that carries it and returns that record; the
    file holds the shrunk collection when the write goes through; a
    subsequent [findNote] returns the next record with that identifier, and
    [undefined] when there is none. *)
Theorem deleteNote_removes_first (id : string) (w : World) :
  Exists (has_id id) (notesStore w) →
  ∃ l1 n l2 w',
    notesStore w = l1 ++ n :: l2 ∧ has_id id n ∧
    Forall (λ m, ¬ has_id id m) l1 ∧
    deleteNote id w = (Ret (RNote n), w') ∧
    notesStore w' = l1 ++ l2 ∧
    file (disk w') =
      (if writable (disk w) then Some (JSON_stringify (l1 ++ l2))
       else file (disk w)) ∧
    findNote id w' = (Ret (ref_of (Array_find (has_id id) l2)), w') ∧
    (Forall (λ m, ¬ has_id id m) l2 → findNote id w' = (Ret RUndefined, w')).
Proof.
  intros Hex.
  apply first_match_split in Hex as (l1 & n & l2 & Hs & Hn & Hl1); [|apply _].
  exists l1, n, l2. eexists. split_and!; [done..| | | | |].
  - rewrite deleteNote_run, Hs, list_find_first by done. done.
  - by rewrite saved_store; simpl; rewrite delete_middle.
  - by rewrite saved_file; simpl; rewrite delete_middle.
  - rewrite findNote_run, saved_store. simpl. rewrite delete_middle.
    unfold Array_find. rewrite list_find_app_r by by apply list_find_None.
    by destruct (list_find (has_id id) l2) as [[??]|].
  - intros Hl2. rewrite findNote_run, saved_store. simpl.
    rewrite delete_middle. unfold Array_find.
    assert (list_find (has_id id) (l1 ++ l2) = None) as ->; [|done].
    apply list_find_None. by apply Forall_app.
Qed.

(** C6.  For an identifier that no record carries, [deleteNote] returns
    [null] and leaves the collection (and the file) as they were. *)
Theorem deleteNote_absent (id : string) (w : World) :
  Forall (λ m, ¬ has_id id m) (notesStore w) →
  deleteNote id w = (Ret RNull, w).
Proof.
  intros Hw. rewrite deleteNote_run.
  by assert (list_find (has_id id) (notesStore w) = None) as ->
    by by apply list_find_None.
Qed.

(** C7, amended.  [getNotes] adds no record and removes none, and does
    not touch the file, but it sorts the collection in memory in place:
    after the call the collection is the sequence it returned.  The order
    is kept when neighbours already were in the order of the sort. *)
Theorem getNotes_in_place (w : World) :
  ∃ l w', getNotes w = (Ret l, w') ∧
          notesStore w' = l ∧
          l ≡ₚ notesStore w ∧
          disk w' = disk w ∧
          (Sorted (λ a b, sort_before by_createdAt a b = true) (notesStore w) →
           w' = w).
Proof.
  do 2 eexists. split; [apply getNotes_run|]. split_and!; [done| |done|].
  - apply Array_sort_Permutation.
  - intros ->%Array_sort_sorted. by destruct w.
Qed.

(** C8.  When the file exists and holds malformed JSON, [loadNotes] ends
    normally and leaves the collection empty and the disk, with the corrupt
    file, as it was; so the module starts with an empty collection over
    the untouched file. *)
Theorem loadNotes_malformed (w : World) (raw : string) :
  file (disk w) = Some (Garbage raw) →
  ∃ w', loadNotes w = (Ret (), w') ∧
        notesStore w' = [] ∧
        disk w' = disk w ∧
        file (disk w') = Some (Garbage raw) ∧
        init (disk w) = {| notesStore := []; disk := disk w |}.
Proof.
  intros Hf.
  assert (∀ s, loadNotes {| notesStore := s; disk := disk w |}
               = (Ret (), {| notesStore := []; disk := disk w |})) as Hload.
  { intros s.
    unfold loadNotes, try_catch, mbind, M_bind, existsSync, readFileSync.
    simpl. rewrite Hf. simpl. rewrite Hf.
    by destruct (readable (disk w)). }
  exists {| notesStore := []; disk := disk w |}. split_and!; [|done..|].
  - destruct w as [s d]. apply Hload.
  - unfold init. by rewrite Hload.
Qed.

(** C9.  [deleteNote] removes exactly one record, the first that carries
    the identifier: the records before and after it, later records with the
    same identifier included, stay in their order, and the collection is
    one record shorter. *)
Theorem deleteNote_exactly_one (id : string) (w : World) :
  (1 < length (filter (has_id id) (notesStore w)))%nat →
  ∃ l1 n l2 w',
    notesStore w = l1 ++ n :: l2 ∧ has_id id n ∧
    Forall (λ m, ¬ has_id id m) l1 ∧
    deleteNote id w = (Ret (RNote n), w') ∧
    notesStore w' = l1 ++ l2 ∧
    filter (has_id id) (notesStore w') = filter (has_id id) l2 ∧
    Exists (has_id id) l2 ∧
    length (notesStore w) = S (length (notesStore w')).
Proof.
  intros Hmany.
  assert (Exists (has_id id) (notesStore w)) as Hex.
  { destruct (filter (has_id id) (notesStore w)) as [|m l] eqn:Hf;
      [simpl in Hmany; lia|].
    assert (m ∈ filter (has_id id) (notesStore w)) as Hm
      by (rewrite Hf; left).
    apply list_elem_of_filter in Hm as [? ?]. apply Exists_exists. eauto. }
  apply first_match_split in Hex as (l1 & n & l2 & Hs & Hn & Hl1); [|apply _].
  assert (filter (has_id id) l1 = []) as Hnil.
  { clear -Hl1. induction Hl1 as [|m l Hm _ IH]; [done|].
    by rewrite filter_cons_False. }
  exists l1, n, l2. eexists. split_and!; [done..| | | | |].
  - rewrite deleteNote_run, Hs, list_find_first by done. done.
  - by rewrite saved_store; simpl; rewrite delete_middle.
  - rewrite saved_store; simpl. by rewrite delete_middle, filter_app, Hnil.
  - rewrite Hs, filter_app, Hnil, filter_cons_True in Hmany by done.
    simpl in Hmany.
    destruct (filter (has_id id) l2) as [|m l] eqn:Hf; [simpl in Hmany; lia|].
    assert (m ∈ filter (has_id id) l2) as Hm by (rewrite Hf; left).
    apply list_elem_of_filter in Hm as [? ?]. apply Exists_exists. eauto.
  - rewrite saved_store; simpl. rewrite delete_middle, Hs, !length_app.
    simpl. lia.
Qed.

End Claims.

(** ** The upload handler *)

Section HandlerFacts.
Context `{Engine}.

Lemma make_note_type title req f url pid now_id now_created :
  prop (make_note title req f url pid now_id now_created) "type" =
  js_or (field (body_type req)) (VStr "note").
Proof. unfold prop, make_note. simpl. by simplify_map_eq. Qed.

Lemma make_note_subject title req f url pid now_id now_created :
  prop (make_note title req f url pid now_id now_created) "subject" =
  js_or (opt_trim (body_subject req)) (VStr "").
Proof. unfold prop, make_note. simpl. by simplify_map_eq. Qed.

Lemma make_note_desc title req f url pid now_id now_created :
  prop (make_note title req f url pid now_id now_created) "desc" =
  js_or (opt_trim (body_desc req)) (VStr "").
Proof. unfold prop, make_note. simpl. by simplify_map_eq. Qed.

(** [x || 'default'] of a text field is a string. *)
Lemma js_or_field_string (o : option string) (d : string) :
  ∃ s, js_or (field o) (VStr d) = VStr s.
Proof. destruct o as [s|]; unfold js_or; simpl; [case_match|]; eauto. Qed.

Lemma js_or_trim_string (o : option string) (d : string) :
  ∃ s, js_or (opt_trim o) (VStr d) = VStr s.
Proof. destruct o as [s|]; unfold js_or; simpl; [case_match|]; eauto. Qed.

(** A 201 reply means the handler built a note and passed it to [addNote]. *)
Lemma upload_201 (req : upload_request) (cloud : cloud_reply)
    (now_id now_created : Z) (w w' : World) (resp : response) :
  upload req cloud now_id now_created w = (Ret resp, w') →
  status resp = 201 →
  ∃ title f url pid,
    body_title req = Some title ∧ req_file req = Some f ∧
    cloud = Resolved url pid ∧
    let n := make_note title req f url pid now_id now_created in
    body resp = FileBody n ∧ notesStore w' = notesStore w ++ [n].
Proof.
  unfold upload, try_catch.
  destruct (req_file req) as [f|], (body_title req) as [title|];
    try (intros [= <- <-]; discriminate).
  destruct (negb (truthy (VStr title)));
    [intros [= <- <-]; discriminate|].
  destruct cloud as [url pid|m]; [|intros [= <- <-]; discriminate].
  unfold mbind, M_bind. rewrite addNote_run.
  intros [= <- <-] _. exists title, f, url, pid.
  split_and!; [done..|]. by rewrite saved_store.
Qed.

End HandlerFacts.

Section HandlerClaims.
Context `{Engine}.

(** C10.  On a successful upload the record handed to [addNote] has type
    ["note"] when the form has no type field or an empty one, and the empty
    string as subject and as description when the form has none; in every
    case its type, subject and description are strings. *)
Theorem upload_defaults (req : upload_request) (cloud : cloud_reply)
    (now_id now_created : Z) (w w' : World) (resp : response) :
  upload req cloud now_id now_created w = (Ret resp, w') →
  status resp = 201 →
  ∃ n, notesStore w' = notesStore w ++ [n] ∧
       body resp = FileBody n ∧
       (body_type req = None ∨ body_type req = Some "" →
        prop n "type" = VStr "note") ∧
       (body_subject req = None → prop n "subject" = VStr "") ∧
       (body_desc req = None → prop n "desc" = VStr "") ∧
       (∃ s, prop n "type" = VStr s) ∧
       (∃ s, prop n "subject" = VStr s) ∧
       (∃ s, prop n "desc" = VStr s).
Proof.
  intros Hrun Hok.
  destruct (upload_201 _ _ _ _ _ _ _ Hrun Hok)
    as (title & f & url & pid & _ & _ & _ & Hbody & Hstore).
  eexists. split_and!; [exact Hstore|exact Hbody|..].
  - rewrite make_note_type. by intros [->| ->].
  - rewrite make_note_subject. by intros ->.
  - rewrite make_note_desc. by intros ->.
  - rewrite make_note_type. apply js_or_field_string.
  - rewrite make_note_subject. apply js_or_trim_string.
  - rewrite make_note_desc. apply js_or_trim_string.
Qed.

End HandlerClaims.

(** * The claims on the sample data, with the reference engine *)

Local Ltac no_match :=
  repeat (constructor; [intros Hid; vm_compute in Hid; discriminate|]);
  constructor.

(** C1 on the sample: a note with a [Date] added to the empty collection on
    a working disk. *)
Lemma mutation_mirrored_witness :
  let w := Sample.empty_ok in
  let w' := (addNote Sample.note_A w).2 in
  writable (disk w) = true ∧
  ((∃ n, addNote n w = (Ret (RNote Sample.note_A), w')) ∨
   (∃ id, deleteNote id w = (Ret (RNote Sample.note_A), w'))) ∧
  (mirrored w' ∧
   reloaded w' = Some (json_image <$> notesStore w') ∧
   (Forall json_plain (notesStore w') → reloaded w' = Some (notesStore w'))).
Proof.
  intros w w'.
  assert (addNote Sample.note_A w = (Ret (RNote Sample.note_A), w')) as Hadd
    by (by rewrite addNote_run).
  split; [reflexivity|]. split; [left; eauto|].
  apply (mutation_mirrored w w' Sample.note_A); [reflexivity|left; eauto].
Defined.

(** C1 as stated fails.  A note created by the upload handler carries a
    [Date]: after [addNote] on a working disk the file mirrors the
    collection, yet parsing it gives a different collection (the date has
    become a string).  And on a disk that refuses the write [addNote] still
    returns the note while the file does not hold the collection. *)
Lemma reload_differs_after_add :
  (let w' := (addNote Sample.note_A Sample.empty_ok).2 in
   (addNote Sample.note_A Sample.empty_ok).1 = Ret (RNote Sample.note_A) ∧
   mirrored w' ∧
   reloaded w' ≠ Some (notesStore w')) ∧
  (let w' := (addNote Sample.note_A Sample.empty_full).2 in
   (addNote Sample.note_A Sample.empty_full).1 = Ret (RNote Sample.note_A) ∧
   ¬ mirrored w').
Proof.
  split; intros w'; (split; [reflexivity|]).
  - split; [reflexivity|].
    intros Heq. apply (f_equal (λ o, (o ≫= head) ≫= (.!! "createdAt"))) in Heq.
    vm_compute in Heq. discriminate.
  - intros Heq. vm_compute in Heq. discriminate.
Qed.


(** C3 on the sample: creation times held as [null], as a number, as
    strings and as a [Date], stored from the oldest to the newest; the
    listing is the collection reversed. *)
Lemma getNotes_newest_first_witness :
  let w := Sample.mixed in
  let l := [Sample.twin_2; Sample.note_B; Sample.note_num; Sample.twin_1;
            Sample.note_null] in
  Forall well_timed (notesStore w) ∧
  created <$> notesStore w =
    [Some 0; Some 1700000000000; Some 1700000000001; Some 1700000000002;
     Some 1700000000500] ∧
  getNotes w = (Ret l, with_store l w) ∧
  l ≡ₚ notesStore w ∧
  StronglySorted newest_first l.
Proof.
  intros w l.
  assert (Forall well_timed (notesStore w)) as Hw
    by (repeat constructor; by eexists).
  assert (getNotes w = (Ret l, with_store l w)) as Hl by (by vm_compute).
  destruct (getNotes_newest_first w Hw) as (l' & w' & Hrun & Hperm & Hsorted).
  assert (l' = l) as -> by congruence.
  split_and!; [exact Hw|by vm_compute|exact Hl|exact Hperm|exact Hsorted].
Defined.

(** C3 as stated fails.  A record without a creation time compares as
    equal to every record (the comparator yields NaN), so the collection
    with such a record between an older and a newer one is returned as it
    is, the newer record after the older.  A time beyond the range of
    [Date] is no time either. *)
Lemma getNotes_undated_not_sorted :
  let l := [Sample.note_A; Sample.note_X; Sample.note_C] in
  notesStore Sample.undated = l ∧
  (getNotes Sample.undated).1 = Ret l ∧
  created Sample.note_A = Some 1700000000001 ∧
  created Sample.note_X = None ∧
  created Sample.note_C = Some 1700000000003 ∧
  ¬ StronglySorted newest_first l ∧
  created (Sample.mk "1" "late" (VNum 8640000000000001)) = None ∧
  created (Sample.mk "2" "late" (VDate (Some (-8640000000000001)))) = None ∧
  created (Sample.mk "3" "void" (VDate None)) = None.
Proof.
  split_and!; try reflexivity.
  intros Hs. apply StronglySorted_inv in Hs as [_ Hs].
  apply Forall_inv_tail, Forall_inv in Hs.
  destruct Hs as (ta & tb & Ha & Hb & Hle).
  vm_compute in Ha, Hb. simplify_eq. by vm_compute in Hle.
Qed.

(** The scenario of three notes added in the order of their creation. *)
Example getNotes_C_B_A :
  ((addNote Sample.note_A;; addNote Sample.note_B;; addNote Sample.note_C;;
    getNotes) Sample.empty_ok).1 =
  Ret [Sample.note_C; Sample.note_B; Sample.note_A].
Proof. reflexivity. Qed.

(** After a restart the notes come back with their dates as ISO strings,
    and are listed in the same order. *)
Example restart_then_list :
  let w := (addNote Sample.note_A;; addNote Sample.note_B;;
            addNote Sample.note_C) Sample.empty_ok in
  let w' := init (disk w.2) in
  notesStore w' = json_image <$> [Sample.note_A; Sample.note_B; Sample.note_C] ∧
  prop (json_image Sample.note_C) "createdAt" = VStr "2023-11-14T22:13:20.003Z" ∧
  (getNotes w').1 =
    Ret (json_image <$> [Sample.note_C; Sample.note_B; Sample.note_A]).
Proof. split_and!; by vm_compute. Qed.

(** The scenario of one note added, found, removed and looked for again. *)
Example add_find_remove_find :
  let id := "1700000000000" in
  ((addNote Sample.twin_1;; findNote id) Sample.empty_ok).1
    = Ret (RNote Sample.twin_1) ∧
  ((addNote Sample.twin_1;; deleteNote id) Sample.empty_ok).1
    = Ret (RNote Sample.twin_1) ∧
  ((addNote Sample.twin_1;; deleteNote id;; findNote id) Sample.empty_ok).1
    = Ret RUndefined.
Proof. by split_and!. Qed.

(** C4 on the sample: a note whose identifier is new to the collection. *)
Lemma find_after_add_witness :
  let id := "1700000000003" in
  has_id id Sample.note_C ∧
  Forall (λ m, ¬ has_id id m) (notesStore Sample.twins) ∧
  ∃ w', (addNote Sample.note_C;; findNote id) Sample.twins
        = (Ret (RNote Sample.note_C), w').
Proof.
  intros id.
  assert (has_id id Sample.note_C) as Hn by reflexivity.
  assert (Forall (λ m, ¬ has_id id m) (notesStore Sample.twins)) as Hf
    by no_match.
  split_and!; [done..|]. exact (find_after_add _ id Sample.twins Hn Hf).
Defined.

(** C4 as stated fails: with a record of the same identifier already in
    the collection, [findNote] after [addNote] returns the older record. *)
Lemma find_after_add_returns_older :
  let run := (addNote Sample.twin_2;; findNote "1700000000000") Sample.one_twin in
  has_id "1700000000000" Sample.twin_2 ∧
  run.1 = Ret (RNote Sample.twin_1) ∧
  run.1 ≠ Ret (RNote Sample.twin_2).
Proof.
  split_and!; [reflexivity..|].
  intros Heq.
  apply (f_equal (λ o, match o with
                       | Ret (RNote n) => n !! "title"
                       | _ => None
                       end)) in Heq.
  vm_compute in Heq. discriminate.
Qed.

(** C5 on the sample: an identifier that two records carry. *)
Lemma deleteNote_removes_first_witness :
  let id := "1700000000000" in
  Exists (has_id id) (notesStore Sample.twins) ∧
  ∃ l1 n l2 w',
    notesStore Sample.twins = l1 ++ n :: l2 ∧ has_id id n ∧
    Forall (λ m, ¬ has_id id m) l1 ∧
    deleteNote id Sample.twins = (Ret (RNote n), w') ∧
    notesStore w' = l1 ++ l2 ∧
    file (disk w') =
      (if writable (disk Sample.twins) then Some (JSON_stringify (l1 ++ l2))
       else file (disk Sample.twins)) ∧
    findNote id w' = (Ret (ref_of (Array_find (has_id id) l2)), w') ∧
    (Forall (λ m, ¬ has_id id m) l2 → findNote id w' = (Ret RUndefined, w')).
Proof.
  intros id.
  assert (Exists (has_id id) (notesStore Sample.twins)) as Hex
    by (apply Exists_cons_tl, Exists_cons_hd; reflexivity).
  split; [exact Hex|]. exact (deleteNote_removes_first id Sample.twins Hex).
Defined.

(** C5 as stated fails: when two records carry the identifier, [findNote]
    after [deleteNote] still finds one. *)
Lemma find_after_delete_finds_twin :
  let id := "1700000000000" in
  let w' := (deleteNote id Sample.twins).2 in
  Exists (has_id id) (notesStore Sample.twins) ∧
  (deleteNote id Sample.twins).1 = Ret (RNote Sample.twin_1) ∧
  (findNote id w').1 = Ret (RNote Sample.twin_2) ∧
  (findNote id w').1 ≠ Ret RUndefined.
Proof.
  split_and!; [|reflexivity|reflexivity|done].
  apply Exists_cons_tl, Exists_cons_hd. reflexivity.
Qed.

(** C6 on the sample: an identifier that no record carries. *)
Lemma deleteNote_absent_witness :
  let id := "42" in
  Forall (λ m, ¬ has_id id m) (notesStore Sample.twins) ∧
  deleteNote id Sample.twins = (Ret RNull, Sample.twins).
Proof.
  intros id.
  assert (Forall (λ m, ¬ has_id id m) (notesStore Sample.twins)) as Hf
    by no_match.
  split; [exact Hf|]. exact (deleteNote_absent id Sample.twins Hf).
Defined.

(** C7 as stated fails: [getNotes] on a collection in insertion order
    leaves it in the reverse order. *)
Lemma getNotes_reorders_store :
  notesStore Sample.in_order = [Sample.note_A; Sample.note_B; Sample.note_C] ∧
  notesStore (getNotes Sample.in_order).2 =
    [Sample.note_C; Sample.note_B; Sample.note_A] ∧
  notesStore (getNotes Sample.in_order).2 ≠ notesStore Sample.in_order.
Proof.
  split_and!; [reflexivity..|].
  intros Heq. apply (f_equal (λ l, head l ≫= (.!! "title"))) in Heq.
  vm_compute in Heq. discriminate.
Qed.

(** C8 on the sample: a file cut off in the middle of a record. *)
Lemma loadNotes_malformed_witness :
  let raw := "[{ 'id': " in
  file (disk Sample.corrupt) = Some (Garbage raw) ∧
  ∃ w', loadNotes Sample.corrupt = (Ret (), w') ∧
        notesStore w' = [] ∧
        disk w' = disk Sample.corrupt ∧
        file (disk w') = Some (Garbage raw) ∧
        init (disk Sample.corrupt)
          = {| notesStore := []; disk := disk Sample.corrupt |}.
Proof.
  intros raw. split; [reflexivity|].
  exact (loadNotes_malformed Sample.corrupt raw eq_refl).
Defined.

(** C9 on the sample: the identifier of the twins. *)
Lemma deleteNote_exactly_one_witness :
  let id := "1700000000000" in
  (1 < length (filter (has_id id) (notesStore Sample.twins)))%nat ∧
  ∃ l1 n l2 w',
    notesStore Sample.twins = l1 ++ n :: l2 ∧ has_id id n ∧
    Forall (λ m, ¬ has_id id m) l1 ∧
    deleteNote id Sample.twins = (Ret (RNote n), w') ∧
    notesStore w' = l1 ++ l2 ∧
    filter (has_id id) (notesStore w') = filter (has_id id) l2 ∧
    Exists (has_id id) l2 ∧
    length (notesStore Sample.twins) = S (length (notesStore w')).
Proof.
  intros id.
  assert (1 < length (filter (has_id id) (notesStore Sample.twins)))%nat as Hm
    by (vm_compute; lia).
  split; [exact Hm|]. exact (deleteNote_exactly_one id Sample.twins Hm).
Defined.

(** On the sample: the first twin goes, the second stays in place. *)
Example deleteNote_twins :
  deleteNote "1700000000000" Sample.twins =
  (Ret (RNote Sample.twin_1),
   saved (with_store [Sample.note_A; Sample.note_B; Sample.twin_2] Sample.twins)).
Proof. by rewrite deleteNote_run. Qed.

(** C10 on the sample: a form with a title and a file and nothing else. *)
Lemma upload_defaults_witness :
  let run := upload Sample.form Sample.cloud_ok 1700000000000 1700000000005
               Sample.empty_ok in
  let resp := {| status := 201; body := FileBody Sample.stored |} in
  run = (Ret resp, run.2) ∧
  status resp = 201 ∧
  ∃ n, notesStore run.2 = notesStore Sample.empty_ok ++ [n] ∧
       body resp = FileBody n ∧
       (body_type Sample.form = None ∨ body_type Sample.form = Some "" →
        prop n "type" = VStr "note") ∧
       (body_subject Sample.form = None → prop n "subject" = VStr "") ∧
       (body_desc Sample.form = None → prop n "desc" = VStr "") ∧
       (∃ s, prop n "type" = VStr s) ∧
       (∃ s, prop n "subject" = VStr s) ∧
       (∃ s, prop n "desc" = VStr s).
Proof.
  intros run resp.
  assert (run = (Ret resp, run.2)) as Hrun by (by vm_compute).
  split; [exact Hrun|]. split; [reflexivity|].
  exact (upload_defaults Sample.form Sample.cloud_ok 1700000000000
           1700000000005 Sample.empty_ok run.2 resp Hrun eq_refl).
Defined.

(** * Further properties of the store *)

Section MoreSortFacts.
Context {A : Type} (cmp : A → A → option Z).

(** When of two elements one may always come first, the sort leaves every
    pair of neighbours in order. *)
Lemma sort_insert_Sorted (x : A) (l : list A) :
  (∀ a b, sort_before cmp a b = false → sort_before cmp b a = true) →
  Sorted (λ a b, sort_before cmp a b = true) l →
  Sorted (λ a b, sort_before cmp a b = true) (sort_insert cmp x l).
Proof.
  intros Htot Hl. induction Hl as [|y l Hl IH Hhd]; simpl.
  - by repeat constructor.
  - destruct (sort_before cmp x y) eqn:Hxy.
    + constructor; [by constructor|by constructor].
    + constructor; [exact IH|].
      destruct Hhd as [|z l' Hyz]; simpl.
      * constructor. by apply Htot.
      * destruct (sort_before cmp x z); constructor; [by apply Htot|done].
Qed.

Lemma Array_sort_Sorted (l : list A) :
  (∀ a b, sort_before cmp a b = false → sort_before cmp b a = true) →
  Sorted (λ a b, sort_before cmp a b = true) (Array_sort cmp l).
Proof.
  intros Htot. induction l as [|x l IH]; simpl; [constructor|].
  by apply sort_insert_Sorted.
Qed.

Lemma Array_sort_twice (l : list A) :
  (∀ a b, sort_before cmp a b = false → sort_before cmp b a = true) →
  Array_sort cmp (Array_sort cmp l) = Array_sort cmp l.
Proof. intros Htot. by apply Array_sort_sorted, Array_sort_Sorted. Qed.

End MoreSortFacts.

(** Sorting commutes with a map that the comparator does not see. *)
Lemma sort_insert_fmap {A B} (cmpA : A → A → option Z)
    (cmpB : B → B → option Z) (f : A → B) (x : A) (l : list A) :
  Forall (λ y, cmpB (f x) (f y) = cmpA x y) l →
  sort_insert cmpB (f x) (f <$> l) = f <$> sort_insert cmpA x l.
Proof.
  induction 1 as [|y l Hy _ IH]; csimpl; [done|].
  unfold sort_before. rewrite Hy. fold (sort_before cmpA x y).
  destruct (sort_before cmpA x y); csimpl; [done|]. by rewrite IH.
Qed.

Lemma Array_sort_fmap {A B} (cmpA : A → A → option Z)
    (cmpB : B → B → option Z) (f : A → B) (l : list A) :
  (∀ x y, x ∈ l → y ∈ l → cmpB (f x) (f y) = cmpA x y) →
  Array_sort cmpB (f <$> l) = f <$> Array_sort cmpA l.
Proof.
  induction l as [|x l IH]; csimpl; intros Hcmp; [done|].
  rewrite IH by (intros; apply Hcmp; by right).
  apply sort_insert_fmap, Forall_forall. intros y Hy.
  apply Hcmp; [left|right]. by rewrite <- (Array_sort_Permutation cmpA l).
Qed.

Section MoreStoreFacts.
Context `{Engine}.

Lemma by_createdAt_total (a b : note) :
  sort_before by_createdAt a b = false → sort_before by_createdAt b a = true.
Proof.
  unfold sort_before, by_createdAt.
  destruct (new_Date (prop b "createdAt")) as [tb|],
           (new_Date (prop a "createdAt")) as [ta|]; simpl; try done.
  intros ?%Z.leb_gt. apply Z.leb_le. lia.
Qed.

Lemma by_createdAt_created (a b a' b' : note) :
  created a' = created a → created b' = created b →
  by_createdAt a' b' = by_createdAt a b.
Proof. unfold by_createdAt, created. by intros -> ->. Qed.

(** What [JSON.parse] builds is written back as it was read. *)
Lemma toJSON_parsed (j : jobject) :
  omap (M := gmap string) toJSON (of_json <$> j) = j.
Proof.
  apply map_eq. intros k. rewrite lookup_omap, lookup_fmap.
  destruct (j !! k) as [[]|]; done.
Qed.

Lemma toJSON_parsed_all (doc : list jobject) :
  omap (M := gmap string) toJSON <$>
    (fmap (M := gmap string) of_json <$> doc) = doc.
Proof.
  induction doc as [|j doc IH]; csimpl; [done|].
  by rewrite toJSON_parsed, IH.
Qed.

Lemma parsed_plain (j : jobject) : json_plain (of_json <$> j).
Proof.
  intros k v. rewrite lookup_fmap.
  destruct (j !! k) as [[]|]; simpl; intros [= <-]; done.
Qed.

Lemma json_image_is_plain (n : note) : json_plain (json_image n).
Proof. apply parsed_plain. Qed.

Lemma toJSON_json_image (n : note) :
  omap (M := gmap string) toJSON (json_image n) = omap toJSON n.
Proof. apply toJSON_parsed. Qed.

Lemma saved_flags (w : World) :
  writable (disk (saved w)) = writable (disk w) ∧
  readable (disk (saved w)) = readable (disk w).
Proof. unfold saved. by destruct (writable (disk w)) eqn:Hw. Qed.

Lemma after_writable (c : call) (w : World) :
  writable (disk (after c w)) = writable (disk w).
Proof.
  destruct c as [|n|id|id]; simpl; try done.
  - rewrite addNote_run. simpl. by rewrite (proj1 (saved_flags _)).
  - rewrite deleteNote_run.
    destruct (list_find _ _) as [[i m]|]; [|done].
    simpl. by rewrite (proj1 (saved_flags _)).
Qed.

Lemma saved_synced (w : World) :
  writable (disk w) = true → synced (saved w).
Proof.
  intros Hw. exists (omap (M := gmap string) toJSON <$> notesStore w).
  unfold saved. rewrite Hw. done.
Qed.

End MoreStoreFacts.

Section StoreProperties.
Context `{Engine}.

Lemma loadNotes_existing (w : World) (d : file_data) :
  file (disk w) = Some d →
  loadNotes w =
  (Ret (), with_store (if readable (disk w) then default [] (parse_json d)
                       else []) w).
Proof.
  intros Hf.
  unfold loadNotes, try_catch, mbind, M_bind, existsSync, readFileSync.
  rewrite Hf. simpl. rewrite Hf.
  destruct (readable (disk w)); [|done].
  unfold JSON_parse. by destruct (parse_json d).
Qed.

Lemma after_unwritable (c : call) (w : World) :
  writable (disk w) = false → disk (after c w) = disk w.
Proof.
  intros Hw. destruct c as [|n|id|id]; simpl; try done.
  - rewrite addNote_run. simpl. unfold saved. simpl. by rewrite Hw.
  - rewrite deleteNote_run.
    destruct (list_find _ _) as [[i m]|]; [|done].
    simpl. unfold saved. simpl. by rewrite Hw.
Qed.

(** A call sees the collection only: worlds with the same collection get
    the same answer and are left with the same collection; and no call
    throws. *)
Lemma call_same_store (c : call) (w1 w2 : World) :
  notesStore w1 = notesStore w2 →
  notesStore (after c w1) = notesStore (after c w2) ∧
  answer_to c w1 = answer_to c w2 ∧
  (∀ e, answer_to c w1 ≠ Thrown e).
Proof.
  intros Hs. destruct c as [|n|id|id]; unfold after, answer_to.
  - rewrite !getNotes_run. simpl. by rewrite Hs.
  - rewrite !addNote_run. simpl. by rewrite !saved_store, Hs.
  - rewrite !deleteNote_run, Hs.
    destruct (list_find _ _) as [[i m]|]; simpl; [|done].
    by rewrite !saved_store.
  - rewrite !findNote_run. simpl. by rewrite Hs.
Qed.

Lemma after_synced (c : call) (w : World) :
  writable (disk w) = true → synced w → synced (after c w).
Proof.
  intros Hw Hs. destruct c as [|n|id|id]; simpl; try done.
  - destruct Hs as (doc & Hf & Hdoc). exists doc. split; [done|].
    rewrite Hdoc. simpl. apply fmap_Permutation. symmetry.
    apply Array_sort_Permutation.
  - rewrite addNote_run. simpl. by apply saved_synced.
  - rewrite deleteNote_run.
    destruct (list_find _ _) as [[i m]|]; [|done].
    simpl. by apply saved_synced.
Qed.

(** X1.  With no backing file, [loadNotes] leaves the collection empty and
    creates the file holding the empty array; when the disk refuses the
    write there is still no file, and no error either. *)
Theorem loadNotes_no_file (w : World) :
  file (disk w) = None →
  ∃ w', loadNotes w = (Ret (), w') ∧
        notesStore w' = [] ∧
        file (disk w') = if writable (disk w) then Some (JsonText []) else None.
Proof.
  intros Hf. eexists. split; [by apply loadNotes_absent|].
  rewrite saved_store, saved_file. simpl. by rewrite Hf.
Qed.

(** X2.  When the file exists, [loadNotes] never writes: the disk is as it
    was.  The collection is the parsed array when the file can be read and
    parsed, and empty otherwise; the loaded notes hold JSON values only (no
    [Date] objects). *)
Theorem loadNotes_keeps_file (w : World) (d : file_data) :
  file (disk w) = Some d →
  ∃ w', loadNotes w = (Ret (), w') ∧
        disk w' = disk w ∧
        notesStore w' = (if readable (disk w) then default [] (parse_json d)
                         else []) ∧
        Forall json_plain (notesStore w').
Proof.
  intros Hf. eexists. split; [by apply loadNotes_existing|].
  split_and!; [done..|]. simpl.
  destruct (readable (disk w)); [|constructor].
  destruct d as [doc|raw]; simpl; [|constructor].
  apply Forall_fmap, Forall_true. intros j. apply parsed_plain.
Qed.

(** X3.  Restart.  When the file mirrors the collection and can be read,
    initialising the module from that disk gives the collection in its JSON
    image and leaves the disk alone; the notes then hold JSON values only,
    and a collection that already did comes back as it was. *)
Theorem restart_json_image (w : World) :
  mirrored w → readable (disk w) = true →
  init (disk w) = {| notesStore := json_image <$> notesStore w;
                     disk := disk w |} ∧
  Forall json_plain (json_image <$> notesStore w) ∧
  (Forall json_plain (notesStore w) → init (disk w) = w).
Proof.
  intros Hm Hr.
  assert (init (disk w) = {| notesStore := json_image <$> notesStore w;
                             disk := disk w |}) as Hinit.
  { unfold init.
    rewrite (loadNotes_existing _ (JSON_stringify (notesStore w))) by done.
    simpl. rewrite Hr. simpl. unfold with_store. simpl.
    by rewrite <- list_fmap_compose. }
  split_and!; [done| |].
  - apply Forall_fmap, Forall_true. intros n. apply json_image_is_plain.
  - intros Hp. rewrite Hinit, json_image_plain_all by done. by destruct w.
Qed.

(** X4.  [getNotes] twice is [getNotes] once: the second call returns the
    same sequence and leaves the world as the first call left it. *)
Theorem getNotes_twice (w : World) :
  ∃ l w', getNotes w = (Ret l, w') ∧ getNotes w' = (Ret l, w').
Proof.
  do 2 eexists. split; [apply getNotes_run|].
  rewrite getNotes_run. simpl.
  rewrite Array_sort_twice by apply by_createdAt_total.
  done.
Qed.

(** X5.  On a collection whose records all have a well-formed creation
    timestamp [getNotes] is stable: the notes created at one same time are
    returned in the order they have in the collection. *)
Theorem getNotes_stable (w : World) (t : Z) :
  Forall well_timed (notesStore w) →
  ∃ l w', getNotes w = (Ret l, w') ∧
          filter (λ n, created n = Some t) l =
          filter (λ n, created n = Some t) (notesStore w).
Proof.
  intros _. do 2 eexists. split; [apply getNotes_run|].
  apply Array_sort_same_time.
Qed.


(** X7.  Adding a note whose identifier is new and deleting it again gives
    the collection back as it was; the file then holds that collection when
    the disk takes the write. *)
Theorem add_then_delete (n : note) (id : string) (w : World) :
  has_id id n →
  Forall (λ m, ¬ has_id id m) (notesStore w) →
  ∃ w', (addNote n;; deleteNote id) w = (Ret (RNote n), w') ∧
        notesStore w' = notesStore w ∧
        file (disk w') =
          if writable (disk w) then Some (JSON_stringify (notesStore w))
          else file (disk w).
Proof.
  intros Hn Hfresh. eexists. unfold mbind, M_bind.
  rewrite addNote_run, deleteNote_run, saved_store. simpl.
  rewrite (list_find_first (has_id id) (notesStore w) [] n) by done.
  split; [done|]. rewrite !saved_store, !saved_file. simpl.
  rewrite (proj1 (saved_flags _)), saved_file. simpl.
  rewrite delete_middle, app_nil_r.
  split; [done|]. by destruct (writable (disk w)).
Qed.

(** X8.  On a disk that refuses writes, no sequence of calls to the store
    changes the disk, and the refused writes do not show: no call throws,
    every call hands back what it hands back on a disk that works, and the
    collection in memory ends as it ends there. *)
Theorem unwritable_file_frozen (cs : list call) (w w_ok : World) :
  writable (disk w) = false →
  notesStore w_ok = notesStore w →
  disk (after_all cs w) = disk w ∧
  notesStore (after_all cs w) = notesStore (after_all cs w_ok) ∧
  answers cs w = answers cs w_ok ∧
  Forall (λ a, ∀ e, a ≠ Thrown e) (answers cs w).
Proof.
  revert w w_ok. induction cs as [|c cs IH]; intros w w_ok Hw Hs; simpl.
  { by split_and!. }
  destruct (call_same_store c w w_ok) as (Hafter & Hanswer & Hreturns);
    [done|].
  destruct (IH (after c w) (after c w_ok)) as (Hd & Hm & Ha & Hr);
    [by rewrite after_writable|done|].
  split_and!.
  - rewrite Hd. by apply after_unwritable.
  - exact Hm.
  - by rewrite Hanswer, Ha.
  - by constructor.
Qed.

(** X9.  On a disk that takes writes, every sequence of calls to the store
    keeps the file in step with memory: if the file holds the records of
    the collection (in JSON form, in some order) before, it does after. *)
Theorem synced_kept (cs : list call) (w : World) :
  writable (disk w) = true →
  synced w →
  synced (after_all cs w).
Proof.
  revert w. induction cs as [|c cs IH]; intros w Hw Hs; simpl; [done|].
  apply IH; [by rewrite after_writable|by apply after_synced].
Qed.

(** X10.  From a healthy start (the disk takes writes, and the file is
    absent or is a readable JSON array) the module initialisation followed
    by any sequence of calls leaves the file holding the records of the
    collection in memory. *)
Theorem synced_from_start (d : Disk) (cs : list call) :
  writable d = true →
  file d = None ∨ (readable d = true ∧ ∃ doc, file d = Some (JsonText doc)) →
  synced (after_all cs (init d)).
Proof.
  intros Hw Hd. unfold init.
  destruct Hd as [Hnone|(Hr & doc & Hdoc)].
  - rewrite loadNotes_absent by done. simpl.
    apply synced_kept; [by rewrite (proj1 (saved_flags _))|].
    by apply saved_synced.
  - rewrite (loadNotes_existing _ (JsonText doc)) by done. simpl.
    rewrite Hr. simpl. apply synced_kept; [done|].
    exists doc. split; [done|]. simpl. by rewrite toJSON_parsed_all.
Qed.

(** X11.  After a load that failed (the file is malformed, or cannot be
    read) the collection is empty, and the first [addNote] on a disk that
    takes writes replaces the content of the file by the one new record. *)
Theorem add_after_failed_load (d : Disk) (data : file_data) (n : note) :
  file d = Some data →
  readable d = false ∨ parse_json data = None →
  writable d = true →
  ∃ w', addNote n (init d) = (Ret (RNote n), w') ∧
        notesStore w' = [n] ∧
        file (disk w') = Some (JSON_stringify [n]).
Proof.
  intros Hf Hbad Hw. eexists. split; [apply addNote_run|].
  unfold init. rewrite (loadNotes_existing _ data) by done. simpl.
  assert ((if readable d then default [] (parse_json data) else []) = [])
    as ->.
  { destruct Hbad as [-> | ->]; [done|]. by destruct (readable d). }
  rewrite saved_store, saved_file. simpl. by rewrite Hw.
Qed.

End StoreProperties.

(** * Further properties of the routes *)

Section RouteFacts.
Context `{Engine}.

Lemma make_note_createdAt title req f url pid now_id now_created :
  make_note title req f url pid now_id now_created !! "createdAt"
  = Some (VDate (Some now_created)).
Proof. unfold make_note. simpl. by simplify_map_eq. Qed.

Lemma make_note_title title req f url pid now_id now_created :
  prop (make_note title req f url pid now_id now_created) "title"
  = VStr (trim title).
Proof. unfold prop, make_note. simpl. by simplify_map_eq. Qed.

(** A request with a file and a non-empty title, once Cloudinary has
    resolved: the handler answers 201 and the world is the one [addNote]
    leaves. *)
Lemma upload_accepted (req : upload_request) (f : file_part) (title : string)
    (url pid : jsval) (now_id now_created : Z) (w : World) :
  req_file req = Some f → body_title req = Some title → title ≠ "" →
  let n := make_note title req f url pid now_id now_created in
  upload req (Resolved url pid) now_id now_created w =
  (Ret {| status := 201; body := FileBody n |},
   saved (with_store (notesStore w ++ [n]) w)).
Proof.
  intros Hf Ht Hne. unfold upload, try_catch. rewrite Hf, Ht. simpl.
  rewrite bool_decide_eq_false_2 by done. simpl.
  unfold mbind, M_bind. by rewrite addNote_run.
Qed.

Lemma json_image_type (n : note) (s : string) :
  prop n "type" = VStr s → prop (json_image n) "type" = VStr s.
Proof.
  unfold prop, json_image. rewrite lookup_fmap, lookup_omap.
  destruct (n !! "type") as [v|]; simpl; [|done]. by intros ->.
Qed.

End RouteFacts.

Section RouteProperties.
Context `{Engine}.

(** X12.  An upload without a file, or without a title, or with the empty
    title is answered 400 with nothing changed, whatever Cloudinary would
    have said. *)
Theorem upload_missing_input (req : upload_request) (cloud : cloud_reply)
    (now_id now_created : Z) (w : World) :
  req_file req = None ∨ body_title req = None ∨ body_title req = Some "" →
  upload req cloud now_id now_created w =
  (Ret {| status := 400; body := RequiredBody |}, w).
Proof.
  unfold upload, try_catch.
  intros [Hf|[Ht|Ht]]; rewrite ?Hf, ?Ht.
  - by destruct (body_title req).
  - by destruct (req_file req).
  - by destruct (req_file req).
Qed.

(** X13.  When Cloudinary rejects the upload, the handler answers 500 with
    that error; no record is created and the file is not touched. *)
Theorem upload_cloud_failure (req : upload_request) (f : file_part)
    (title m : string) (now_id now_created : Z) (w : World) :
  req_file req = Some f → body_title req = Some title → title ≠ "" →
  upload req (Rejected m) now_id now_created w =
  (Ret {| status := 500; body := FailedBody (UploadError m) |}, w).
Proof.
  intros Hf Ht Hne. unfold upload, try_catch. rewrite Hf, Ht. simpl.
  by rewrite bool_decide_eq_false_2.
Qed.

(** X14.  The handler does not look at what [addNote] returns: on a disk
    that refuses the write a valid upload is still answered 201, with the
    note in memory and the disk as it was. *)
Theorem upload_201_unwritten (req : upload_request) (f : file_part)
    (title : string) (url pid : jsval) (now_id now_created : Z) (w : World) :
  req_file req = Some f → body_title req = Some title → title ≠ "" →
  writable (disk w) = false →
  ∃ n w', upload req (Resolved url pid) now_id now_created w =
            (Ret {| status := 201; body := FileBody n |}, w') ∧
          notesStore w' = notesStore w ++ [n] ∧
          disk w' = disk w.
Proof.
  intros Hf Ht Hne Hw. do 2 eexists.
  split; [by apply upload_accepted|].
  unfold saved. simpl. by rewrite Hw.
Qed.

(** X15.  A note stored by the upload handler has a well-formed creation
    time, the time of the upload (for a clock within the range of [Date]):
    uploads keep a collection of well-timed notes well timed. *)
Theorem upload_well_timed (req : upload_request) (cloud : cloud_reply)
    (now_id now_created : Z) (w w' : World) (resp : response) :
  upload req cloud now_id now_created w = (Ret resp, w') →
  status resp = 201 →
  Z.abs now_created ≤ 8640000000000000 →
  ∃ n, notesStore w' = notesStore w ++ [n] ∧
       created n = Some now_created ∧
       (Forall well_timed (notesStore w) → Forall well_timed (notesStore w')).
Proof.
  intros Hrun Hok Hclock.
  destruct (upload_201 _ _ _ _ _ _ _ Hrun Hok)
    as (title & f & url & pid & _ & _ & _ & _ & Hstore).
  assert (created (make_note title req f url pid now_id now_created)
          = Some now_created) as Hc.
  { unfold created, prop. rewrite make_note_createdAt. simpl.
    unfold TimeClip. by rewrite (proj2 (Z.leb_le _ _) Hclock). }
  eexists. split_and!; [exact Hstore|exact Hc|].
  intros Hw. rewrite Hstore. apply Forall_app. split; [done|].
  repeat constructor. by eexists.
Qed.

(** X16.  After every accepted upload on a disk that takes the write, the
    file mirrors the collection, and yet reading it back does not give the
    collection: the new note holds a [Date] in memory and a string (or
    [null]) in the file. *)
Theorem upload_reload_differs (req : upload_request) (f : file_part)
    (title : string) (url pid : jsval) (now_id now_created : Z) (w : World) :
  req_file req = Some f → body_title req = Some title → title ≠ "" →
  writable (disk w) = true →
  ∃ resp w', upload req (Resolved url pid) now_id now_created w
               = (Ret resp, w') ∧
             status resp = 201 ∧
             mirrored w' ∧
             reloaded w' ≠ Some (notesStore w').
Proof.
  intros Hf Ht Hne Hw. do 2 eexists.
  split; [by apply upload_accepted|]. split; [done|].
  assert (mirrored (saved (with_store
            (notesStore w ++
             [make_note title req f url pid now_id now_created]) w))) as Hm
    by by apply saved_mirrored.
  split; [exact Hm|].
  rewrite (reloaded_mirrored _ Hm), saved_store. simpl.
  rewrite fmap_app. intros [= Heq].
  apply app_inj_2 in Heq as [_ Heq]; [|done].
  apply (f_equal (λ l, head l ≫= (.!! "createdAt"))) in Heq.
  simpl in Heq. unfold json_image in Heq.
  rewrite lookup_fmap, lookup_omap, make_note_createdAt in Heq.
  simpl in Heq. by destruct (TimeClip now_created).
Qed.

(** X17.  The title is checked before it is trimmed: a title that is not
    empty but consists of white space is accepted, and the note is stored
    with the empty title. *)
Theorem upload_blank_title (req : upload_request) (f : file_part)
    (title : string) (url pid : jsval) (now_id now_created : Z) (w : World) :
  req_file req = Some f → body_title req = Some title →
  title ≠ "" → trim title = "" →
  ∃ n w', upload req (Resolved url pid) now_id now_created w =
            (Ret {| status := 201; body := FileBody n |}, w') ∧
          notesStore w' = notesStore w ++ [n] ∧
          prop n "title" = VStr "".
Proof.
  intros Hf Ht Hne Htrim. do 2 eexists.
  split; [by apply upload_accepted|].
  by rewrite saved_store, make_note_title, Htrim.
Qed.

(** X18.  Deleting an identifier that no record carries is answered 404:
    nothing is changed and Cloudinary is not called. *)
Theorem delete_api_unknown (id : string) (cloud : destroy_reply) (w : World) :
  id ≠ "" →
  Forall (λ m, ¬ has_id id m) (notesStore w) →
  delete_api_data id cloud w =
  (Ret {| delete_status := 404; delete_payload := NotFoundBody;
          destroy_sent := None |}, w).
Proof.
  intros Hne Hnone. unfold delete_api_data, try_catch. simpl.
  rewrite bool_decide_eq_false_2 by done. simpl.
  unfold mbind, M_bind. rewrite findNote_run. unfold Array_find.
  by assert (list_find (has_id id) (notesStore w) = None) as ->
    by by apply list_find_None.
Qed.

(** X19.  Deleting an identifier that some record carries is answered 200
    whatever Cloudinary answers and whatever the disk does: the first
    record with that identifier leaves the collection, and [destroy] was
    called, with the record's public id, exactly when that public id is
    truthy. *)
Theorem delete_api_known (id : string) (cloud : destroy_reply) (w : World) :
  id ≠ "" →
  Exists (has_id id) (notesStore w) →
  ∃ l1 n l2 w',
    notesStore w = l1 ++ n :: l2 ∧ has_id id n ∧
    Forall (λ m, ¬ has_id id m) l1 ∧
    delete_api_data id cloud w =
      (Ret {| delete_status := 200; delete_payload := DeletedBody;
              destroy_sent :=
                if truthy (prop n "publicId")
                then Some {| destroy_id := prop n "publicId";
                             destroy_resource_type := destroy_type n |}
                else None |}, w') ∧
    notesStore w' = l1 ++ l2.
Proof.
  intros Hne Hex.
  apply first_match_split in Hex as (l1 & n & l2 & Hs & Hn & Hl1); [|apply _].
  exists l1, n, l2. eexists. split_and!; [done..| |].
  - unfold delete_api_data, try_catch. simpl.
    rewrite bool_decide_eq_false_2 by done. simpl.
    unfold mbind, M_bind. rewrite findNote_run. unfold Array_find.
    rewrite Hs, list_find_first by done. simpl.
    destruct (truthy (prop n "publicId")); simpl.
    + destruct cloud; simpl;
        rewrite deleteNote_run; simpl; rewrite Hs, list_find_first by done;
        reflexivity.
    + rewrite deleteNote_run. simpl. rewrite Hs, list_find_first by done.
      reflexivity.
  - rewrite saved_store. simpl. by rewrite delete_middle.
Qed.

(** X20.  The resource type the delete handler gives to [destroy] for a
    note the upload handler made is the one the upload handler gave to
    [upload_stream], also after the note has been through the file. *)
Theorem destroy_type_matches_upload (req : upload_request) (f : file_part)
    (title : string) (url pid : jsval) (now_pid now_id now_created : Z) :
  let n := make_note title req f url pid now_id now_created in
  destroy_type n = resource_type (upload_stream_options req f now_pid) ∧
  destroy_type (json_image n) = destroy_type n.
Proof.
  intros n.
  destruct (js_or_field_string (body_type req) "note") as [s Hs].
  assert (prop n "type" = VStr s) as Hn
    by (unfold n; by rewrite make_note_type).
  split.
  - unfold destroy_type, upload_stream_options. simpl. rewrite Hn.
    destruct (body_type req) as [t|] eqn:Ht; unfold js_or in Hs; simpl in Hs.
    + destruct (bool_decide (t = "")) eqn:Hempty; simpl in Hs.
      * apply bool_decide_eq_true_1 in Hempty as ->. by simplify_eq.
      * injection Hs as <-.
        destruct (decide (t = "image")) as [->|Hni]; [done|].
        rewrite !bool_decide_eq_false_2; [done|congruence..].
    + by simplify_eq.
  - unfold destroy_type. by rewrite (json_image_type n s), Hn.
Qed.

(** The two list routes always answer 200, with the same body: the
    JSON text of what [getNotes] returns; like [getNotes] they leave the
    collection sorted. *)
Lemma list_routes_agree (w : World) :
  ∃ l w', getNotes w = (Ret l, w') ∧
          get_api_notes w =
            (Ret {| list_status := 200;
                    list_payload := NotesBody (JSON_stringify l) |}, w') ∧
          get_api_data w = get_api_notes w.
Proof. do 2 eexists. by split_and!. Qed.

(** X21.  A client sees the same listing before and after a restart: when
    the file mirrors the collection and can be read, and the engine reads
    back the creation times it wrote, the list route answers from the
    reloaded collection what it answers from the one in memory. *)
Theorem listing_survives_restart (w : World) :
  mirrored w → readable (disk w) = true →
  Forall reads_back (notesStore w) →
  (get_api_notes (init (disk w))).1 = (get_api_notes w).1.
Proof.
  intros Hm Hr Hback.
  assert (init (disk w) = {| notesStore := json_image <$> notesStore w;
                             disk := disk w |}) as ->.
  { unfold init.
    rewrite (loadNotes_existing _ (JSON_stringify (notesStore w))) by done.
    simpl. rewrite Hr. simpl. unfold with_store. simpl.
    by rewrite <- list_fmap_compose. }
  unfold get_api_notes, try_catch, mbind, M_bind.
  rewrite !getNotes_run. simpl. do 3 f_equal.
  rewrite (Array_sort_fmap by_createdAt by_createdAt json_image).
  - unfold JSON_stringify. f_equal. rewrite <- list_fmap_compose.
    apply list_fmap_ext. intros _ n _. apply toJSON_json_image.
  - intros a b Ha Hb. rewrite Forall_forall in Hback.
    apply by_createdAt_created; by apply Hback.
Qed.

(** X22.  A form without a type field is uploaded as [raw] into the folder
    [campusnotes/undefineds], while the record it produces says type
    ["note"]. *)
Theorem upload_without_type (req : upload_request) (f : file_part)
    (title : string) (url pid : jsval) (now_pid now_id now_created : Z) :
  body_type req = None →
  folder (upload_stream_options req f now_pid) = "campusnotes/undefineds" ∧
  resource_type (upload_stream_options req f now_pid) = "raw" ∧
  prop (make_note title req f url pid now_id now_created) "type" = VStr "note".
Proof.
  intros Ht. rewrite make_note_type. unfold upload_stream_options. simpl.
  by rewrite Ht.
Qed.

End RouteProperties.

(** * The further properties on the sample data *)

(** X1 on the sample: a disk without the file. *)
Lemma loadNotes_no_file_witness :
  file (disk Sample.fresh) = None ∧
  ∃ w', loadNotes Sample.fresh = (Ret (), w') ∧
        notesStore w' = [] ∧
        file (disk w') =
          if writable (disk Sample.fresh) then Some (JsonText []) else None.
Proof.
  split; [reflexivity|]. exact (loadNotes_no_file Sample.fresh eq_refl).
Defined.

(** X2 on the sample: the disk one [addNote] has written. *)
Lemma loadNotes_keeps_file_witness :
  let w := (addNote Sample.twin_1 Sample.empty_ok).2 in
  let d := JSON_stringify [Sample.twin_1] in
  file (disk w) = Some d ∧
  ∃ w', loadNotes w = (Ret (), w') ∧
        disk w' = disk w ∧
        notesStore w' = (if readable (disk w) then default [] (parse_json d)
                         else []) ∧
        Forall json_plain (notesStore w').
Proof.
  intros w d.
  assert (file (disk w) = Some d) as Hf by reflexivity.
  split; [exact Hf|]. exact (loadNotes_keeps_file w d Hf).
Defined.

(** X3 on the sample: a restart after one note with a [Date] was added. *)
Lemma restart_json_image_witness :
  let w := (addNote Sample.note_A Sample.empty_ok).2 in
  mirrored w ∧ readable (disk w) = true ∧
  (init (disk w) = {| notesStore := json_image <$> notesStore w;
                      disk := disk w |} ∧
   Forall json_plain (json_image <$> notesStore w) ∧
   (Forall json_plain (notesStore w) → init (disk w) = w)).
Proof.
  intros w.
  assert (mirrored w) as Hm by reflexivity.
  assert (readable (disk w) = true) as Hr by reflexivity.
  split; [exact Hm|]. split; [exact Hr|]. exact (restart_json_image w Hm Hr).
Defined.

(** X5 on the sample: two notes of one same millisecond around an older
    one; they are listed first, in the order they are stored in. *)
Lemma getNotes_stable_witness :
  let w := Sample.tied in
  let t := 1700000000002 in
  let l := [Sample.note_P; Sample.note_R; Sample.note_A] in
  Forall well_timed (notesStore w) ∧
  getNotes w = (Ret l, with_store l w) ∧
  filter (λ n, created n = Some t) l = [Sample.note_P; Sample.note_R] ∧
  filter (λ n, created n = Some t) l =
    filter (λ n, created n = Some t) (notesStore w).
Proof.
  intros w t l.
  assert (Forall well_timed (notesStore w)) as Hw
    by (repeat constructor; by eexists).
  assert (getNotes w = (Ret l, with_store l w)) as Hl by (by vm_compute).
  destruct (getNotes_stable w t Hw) as (l' & w' & Hrun & Hstable).
  assert (l' = l) as -> by congruence.
  split_and!; [exact Hw|exact Hl|by vm_compute|exact Hstable].
Defined.

(** X7 on the sample: a note whose identifier is new. *)
Lemma add_then_delete_witness :
  let id := "1700000000003" in
  has_id id Sample.note_C ∧
  Forall (λ m, ¬ has_id id m) (notesStore Sample.twins) ∧
  ∃ w', (addNote Sample.note_C;; deleteNote id) Sample.twins
          = (Ret (RNote Sample.note_C), w') ∧
        notesStore w' = notesStore Sample.twins ∧
        file (disk w') =
          if writable (disk Sample.twins)
          then Some (JSON_stringify (notesStore Sample.twins))
          else file (disk Sample.twins).
Proof.
  intros id.
  assert (has_id id Sample.note_C) as Hn by reflexivity.
  assert (Forall (λ m, ¬ has_id id m) (notesStore Sample.twins)) as Hf
    by no_match.
  split_and!; [done..|]. exact (add_then_delete _ id Sample.twins Hn Hf).
Defined.

(** X8 on the sample: an add, a listing and a delete on a full disk,
    answered as on the working disk. *)
Lemma unwritable_file_frozen_witness :
  let cs := [Call_addNote Sample.note_A; Call_getNotes;
             Call_deleteNote "1700000000001"] in
  let w := Sample.empty_full in
  let w_ok := Sample.empty_ok in
  writable (disk w) = false ∧
  notesStore w_ok = notesStore w ∧
  answers cs w = [Handed (RNote Sample.note_A); Listed [Sample.note_A];
                  Handed (RNote Sample.note_A)] ∧
  (disk (after_all cs w) = disk w ∧
   notesStore (after_all cs w) = notesStore (after_all cs w_ok) ∧
   answers cs w = answers cs w_ok ∧
   Forall (λ a, ∀ e, a ≠ Thrown e) (answers cs w)).
Proof.
  intros cs w w_ok.
  split; [reflexivity|]. split; [reflexivity|]. split; [reflexivity|].
  exact (unwritable_file_frozen cs w w_ok eq_refl eq_refl).
Defined.

(** X9 on the sample: adds, a listing and a delete on a working disk. *)
Lemma synced_kept_witness :
  let cs := [Call_addNote Sample.note_A; Call_addNote Sample.note_B;
             Call_getNotes; Call_deleteNote "1700000000001";
             Call_findNote "1700000000002"] in
  writable (disk Sample.empty_ok) = true ∧
  synced Sample.empty_ok ∧
  synced (after_all cs Sample.empty_ok).
Proof.
  intros cs.
  assert (synced Sample.empty_ok) as Hs by (by exists []).
  split_and!; [reflexivity|exact Hs|].
  exact (synced_kept cs Sample.empty_ok eq_refl Hs).
Defined.

(** X10 on the sample: a first start, on a disk without the file. *)
Lemma synced_from_start_witness :
  let cs := [Call_addNote Sample.note_A; Call_getNotes] in
  writable Sample.disk_fresh = true ∧
  (file Sample.disk_fresh = None ∨
   (readable Sample.disk_fresh = true ∧
    ∃ doc, file Sample.disk_fresh = Some (JsonText doc))) ∧
  synced (after_all cs (init Sample.disk_fresh)).
Proof.
  intros cs.
  assert (file Sample.disk_fresh = None ∨
          (readable Sample.disk_fresh = true ∧
           ∃ doc, file Sample.disk_fresh = Some (JsonText doc))) as Hd
    by (left; reflexivity).
  split_and!; [reflexivity|exact Hd|].
  exact (synced_from_start Sample.disk_fresh cs eq_refl Hd).
Defined.

(** X11 on the sample: the corrupt file, then a first note. *)
Lemma add_after_failed_load_witness :
  let data := Garbage "[{ 'id': " in
  file Sample.disk_corrupt = Some data ∧
  (readable Sample.disk_corrupt = false ∨ parse_json data = None) ∧
  writable Sample.disk_corrupt = true ∧
  ∃ w', addNote Sample.note_A (init Sample.disk_corrupt)
          = (Ret (RNote Sample.note_A), w') ∧
        notesStore w' = [Sample.note_A] ∧
        file (disk w') = Some (JSON_stringify [Sample.note_A]).
Proof.
  intros data.
  assert (readable Sample.disk_corrupt = false ∨ parse_json data = None)
    as Hbad by (right; reflexivity).
  split_and!; [reflexivity|exact Hbad|reflexivity|].
  exact (add_after_failed_load Sample.disk_corrupt data Sample.note_A
           eq_refl Hbad eq_refl).
Defined.

(** X12 on the sample: a form with a title and no file. *)
Lemma upload_missing_input_witness :
  (req_file Sample.no_file = None ∨ body_title Sample.no_file = None ∨
   body_title Sample.no_file = Some "") ∧
  upload Sample.no_file Sample.cloud_ok 1700000000000 1700000000005
    Sample.in_order =
  (Ret {| status := 400; body := RequiredBody |}, Sample.in_order).
Proof.
  assert (req_file Sample.no_file = None ∨ body_title Sample.no_file = None ∨
          body_title Sample.no_file = Some "") as Hm by (left; reflexivity).
  split; [exact Hm|].
  exact (upload_missing_input Sample.no_file Sample.cloud_ok 1700000000000
           1700000000005 Sample.in_order Hm).
Defined.

Local Ltac sample_form :=
  split_and!; [reflexivity|reflexivity|discriminate|..].

(** X13 on the sample: Cloudinary rejects. *)
Lemma upload_cloud_failure_witness :
  let f := {| originalname := "algebra.pdf"; mimetype := "application/pdf";
              size := 1024 |} in
  let title := " Algebra I " in
  req_file Sample.form = Some f ∧ body_title Sample.form = Some title ∧
  title ≠ "" ∧
  upload Sample.form (Rejected "timeout") 1700000000000 1700000000005
    Sample.in_order =
  (Ret {| status := 500; body := FailedBody (UploadError "timeout") |},
   Sample.in_order).
Proof.
  intros f title. sample_form.
  apply (upload_cloud_failure Sample.form f title);
    [reflexivity|reflexivity|discriminate].
Defined.

(** X14 on the sample: a valid upload on a full disk. *)
Lemma upload_201_unwritten_witness :
  let f := {| originalname := "algebra.pdf"; mimetype := "application/pdf";
              size := 1024 |} in
  let title := " Algebra I " in
  let w := Sample.empty_full in
  req_file Sample.form = Some f ∧ body_title Sample.form = Some title ∧
  title ≠ "" ∧ writable (disk w) = false ∧
  ∃ n w', upload Sample.form (Resolved VUndefined VUndefined) 1700000000000
            1700000000005 w =
            (Ret {| status := 201; body := FileBody n |}, w') ∧
          notesStore w' = notesStore w ++ [n] ∧
          disk w' = disk w.
Proof.
  intros f title w. sample_form; [reflexivity|].
  apply (upload_201_unwritten Sample.form f title);
    [reflexivity|reflexivity|discriminate|reflexivity].
Defined.

(** X15 on the sample: the upload of the sample form. *)
Lemma upload_well_timed_witness :
  let run := upload Sample.form Sample.cloud_ok 1700000000000 1700000000005
               Sample.in_order in
  let resp := {| status := 201; body := FileBody Sample.stored |} in
  run = (Ret resp, run.2) ∧
  status resp = 201 ∧
  Z.abs 1700000000005 ≤ 8640000000000000 ∧
  ∃ n, notesStore run.2 = notesStore Sample.in_order ++ [n] ∧
       created n = Some 1700000000005 ∧
       (Forall well_timed (notesStore Sample.in_order) →
        Forall well_timed (notesStore run.2)).
Proof.
  intros run resp.
  assert (run = (Ret resp, run.2)) as Hrun by (by vm_compute).
  assert (Z.abs 1700000000005 ≤ 8640000000000000) as Hclock by lia.
  split_and!; [exact Hrun|reflexivity|exact Hclock|].
  exact (upload_well_timed Sample.form Sample.cloud_ok 1700000000000
           1700000000005 Sample.in_order run.2 resp Hrun eq_refl Hclock).
Defined.

(** X16 on the sample: a valid upload on a working disk. *)
Lemma upload_reload_differs_witness :
  let f := {| originalname := "algebra.pdf"; mimetype := "application/pdf";
              size := 1024 |} in
  let title := " Algebra I " in
  let w := Sample.empty_ok in
  req_file Sample.form = Some f ∧ body_title Sample.form = Some title ∧
  title ≠ "" ∧ writable (disk w) = true ∧
  ∃ resp w', upload Sample.form (Resolved VUndefined VUndefined)
               1700000000000 1700000000005 w = (Ret resp, w') ∧
             status resp = 201 ∧
             mirrored w' ∧
             reloaded w' ≠ Some (notesStore w').
Proof.
  intros f title w. sample_form; [reflexivity|].
  apply (upload_reload_differs Sample.form f title);
    [reflexivity|reflexivity|discriminate|reflexivity].
Defined.

(** X17 on the sample: a title of three spaces. *)
Lemma upload_blank_title_witness :
  let f := {| originalname := "algebra.pdf"; mimetype := "application/pdf";
              size := 1024 |} in
  let title := "   " in
  let w := Sample.empty_ok in
  req_file Sample.blank_title = Some f ∧
  body_title Sample.blank_title = Some title ∧
  title ≠ "" ∧ trim title = "" ∧
  ∃ n w', upload Sample.blank_title (Resolved VUndefined VUndefined)
            1700000000000 1700000000005 w =
            (Ret {| status := 201; body := FileBody n |}, w') ∧
          notesStore w' = notesStore w ++ [n] ∧
          prop n "title" = VStr "".
Proof.
  intros f title w. sample_form; [reflexivity|].
  apply (upload_blank_title Sample.blank_title f title);
    [reflexivity|reflexivity|discriminate|reflexivity].
Defined.

(** X18 on the sample: an identifier that no record carries. *)
Lemma delete_api_unknown_witness :
  let id := "42" in
  id ≠ "" ∧
  Forall (λ m, ¬ has_id id m) (notesStore Sample.twins) ∧
  delete_api_data id Destroyed Sample.twins =
  (Ret {| delete_status := 404; delete_payload := NotFoundBody;
          destroy_sent := None |}, Sample.twins).
Proof.
  intros id.
  assert (id ≠ "") as Hne by discriminate.
  assert (Forall (λ m, ¬ has_id id m) (notesStore Sample.twins)) as Hf
    by no_match.
  split_and!; [exact Hne|exact Hf|].
  exact (delete_api_unknown id Destroyed Sample.twins Hne Hf).
Defined.

(** X19 on the sample: the uploaded note, with Cloudinary failing. *)
Lemma delete_api_known_witness :
  let id := "1700000000000" in
  let cloud := DestroyRejected "not found" in
  let w := Sample.with_stored in
  id ≠ "" ∧
  Exists (has_id id) (notesStore w) ∧
  ∃ l1 n l2 w',
    notesStore w = l1 ++ n :: l2 ∧ has_id id n ∧
    Forall (λ m, ¬ has_id id m) l1 ∧
    delete_api_data id cloud w =
      (Ret {| delete_status := 200; delete_payload := DeletedBody;
              destroy_sent :=
                if truthy (prop n "publicId")
                then Some {| destroy_id := prop n "publicId";
                             destroy_resource_type := destroy_type n |}
                else None |}, w') ∧
    notesStore w' = l1 ++ l2.
Proof.
  intros id cloud w.
  assert (id ≠ "") as Hne by discriminate.
  assert (Exists (has_id id) (notesStore w)) as Hex
    by (apply Exists_cons_tl, Exists_cons_hd; reflexivity).
  split_and!; [exact Hne|exact Hex|].
  exact (delete_api_known id cloud w Hne Hex).
Defined.

(** On the sample the call to [destroy] names the stored public id, as a
    raw resource. *)
Example delete_api_stored :
  (delete_api_data "1700000000000" (DestroyRejected "not found")
     Sample.with_stored).1 =
  Ret {| delete_status := 200; delete_payload := DeletedBody;
         destroy_sent :=
           Some {| destroy_id :=
                     VStr "campusnotes/undefineds/1700000000000_algebra";
                   destroy_resource_type := "raw" |} |}.
Proof. reflexivity. Qed.

(** X21 on the sample: two notes with [Date]s, added and then reloaded. *)
Lemma listing_survives_restart_witness :
  let w := (addNote Sample.note_A;; addNote Sample.note_B) Sample.empty_ok in
  mirrored w.2 ∧ readable (disk w.2) = true ∧
  Forall reads_back (notesStore w.2) ∧
  (get_api_notes (init (disk w.2))).1 = (get_api_notes w.2).1.
Proof.
  intros w.
  assert (mirrored w.2) as Hm by reflexivity.
  assert (readable (disk w.2) = true) as Hr by reflexivity.
  assert (Forall reads_back (notesStore w.2)) as Hb
    by (repeat constructor; by vm_compute).
  split_and!; [exact Hm|exact Hr|exact Hb|].
  exact (listing_survives_restart w.2 Hm Hr Hb).
Defined.

(** X22 on the sample: the form without a type field. *)
Lemma upload_without_type_witness :
  let f := {| originalname := "algebra.pdf"; mimetype := "application/pdf";
              size := 1024 |} in
  body_type Sample.form = None ∧
  (folder (upload_stream_options Sample.form f 1700000000000)
     = "campusnotes/undefineds" ∧
   resource_type (upload_stream_options Sample.form f 1700000000000) = "raw" ∧
   prop (make_note " Algebra I " Sample.form f VUndefined VUndefined
           1700000000000 1700000000005) "type" = VStr "note").
Proof.
  intros f. split; [reflexivity|].
  exact (upload_without_type Sample.form f " Algebra I " VUndefined VUndefined
           1700000000000 1700000000000 1700000000005 eq_refl).
Defined.

(** The public id of the sample photo stops at the first dot of its name. *)
Example photo_options :
  upload_stream_options Sample.photo
    {| originalname := "board.photo.png"; mimetype := "image/png";
       size := 2048 |} 1700000000000 =
  {| resource_type := "image";
     folder := "campusnotes/images";
     public_id := "1700000000000_board" |}.
Proof. reflexivity. Qed.
